(** * Model selection strategies of my_model_selectors.py

    A shallow embedding of the four selector classes (SelectorConstant,
    SelectorBIC, SelectorDIC, SelectorCV) and of ModelSelector.base_model.

    Python floats are IEEE-754 binary64 values, modelled with the
    executable specification of the Standard Library (SpecFloat) at
    precision 53 and maximal exponent 1024.  The selector object [self] is
    mutable (SelectorCV assigns self.X and self.lengths) and every call may
    raise, so the code lives in a state-and-exception monad in which the
    state survives a raise, as it does in Python.  hmmlearn, numpy's
    summation and math.log are external collaborators: they are the
    operations of the class [Libraries], and so is print: what it writes
    to stdout is not tracked, whether it raises is.  The warning filters
    have no influence on what select returns or raises and are left out. *)

From Stdlib Require Import ZArith String List Bool Lia DecimalString.
From Stdlib Require Import Floats.SpecFloat.
Import ListNotations.
Open Scope Z_scope.

(** ** Python floats *)

Module PyFloat.
Definition prec : Z := 53.
Definition emax : Z := 1024.
Definition float : Type := spec_float.

Definition inf : float := S754_infinity false.      (* float('inf') *)
Definition neg_inf : float := S754_infinity true.   (* float('-inf') *)
Definition nan : float := S754_nan.
Definition zero : float := S754_zero false.

Definition add : float -> float -> float := SFadd prec emax.
Definition sub : float -> float -> float := SFsub prec emax.
Definition mul : float -> float -> float := SFmul prec emax.
Definition div : float -> float -> float := SFdiv prec emax.
Definition ltb : float -> float -> bool := SFltb.
Definition leb : float -> float -> bool := SFleb.

(** Conversion of an integer, rounding to nearest even. *)
Definition of_Z (z : Z) : float := binary_normalize prec emax z 0 false.
End PyFloat.
Import PyFloat.

(** ** Exceptions, outcomes and the monad of methods of [self] *)

Inductive exn : Type :=
| TypeError
| AttributeError
| ValueError
| KeyError
| IndexError
| OverflowError
| LibraryError (code : Z).

Inductive outcome (A : Type) : Type :=
| Ok (a : A)
| Raise (e : exn).
Arguments Ok {A} a.
Arguments Raise {A} e.

(** ** Data *)

Definition feature_vector : Type := list float.
Definition sequence : Type := list feature_vector.

(** What is passed as the observation argument of fit and score: a matrix
    of feature vectors, or (line 162) an array of fold indices. *)
Inductive array : Type :=
| Frames (rows : list feature_vector)
| Index (ix : list Z).

Definition len (a : array) : Z :=
  match a with
  | Frames rows => Z.of_nat (length rows)
  | Index ix => Z.of_nat (length ix)
  end.

(** A fitted GaussianHMM over learned parameters of type [P]: the
    constructor stores n_components and random_state, fit stores
    n_features and the learned parameters and returns the object itself. *)
Record GaussianHMM (P : Type) : Type := {
  n_components : Z;
  hmm_random_state : Z;
  n_features : Z;
  learned : P
}.
Arguments n_components {P} _.
Arguments hmm_random_state {P} _.
Arguments n_features {P} _.
Arguments learned {P} _.

(** The external collaborators.  [hmm_fit n seed X lengths] is
    GaussianHMM(n_components=n, covariance_type="diag", n_iter=1000,
    random_state=seed).fit(X, lengths): it raises or yields the feature
    dimensionality and the learned parameters.  [hmm_score] is
    GaussianHMM.score, [ln] is math.log on a positive integer, [np_sum]
    is numpy's add-reduction of a list of scores and [py_print] is print
    applied to one string, which returns or raises (stdout closed, a
    character stdout cannot encode). *)
Class Libraries : Type := {
  params : Type;
  hmm_fit : Z -> Z -> array -> list Z -> outcome (Z * params);
  hmm_score : GaussianHMM params -> array -> list Z -> outcome float;
  ln : Z -> float;
  np_sum : list float -> float;
  py_print : string -> outcome unit
}.

Definition hmm `{Libraries} : Type := GaussianHMM params.

Record ModelSelector : Type := {
  words : list (string * list sequence);
  hwords : list (string * (array * list Z));
  sequences : list sequence;
  X : array;
  lengths : list Z;
  this_word : string;
  n_constant : Z;
  min_n_components : Z;
  max_n_components : Z;
  random_state : Z;
  verbose : bool
}.

Definition M (A : Type) : Type := ModelSelector -> outcome A * ModelSelector.

Definition ret {A} (a : A) : M A := fun self => (Ok a, self).

Definition bind {A B} (c : M A) (k : A -> M B) : M B :=
  fun self =>
    match c self with
    | (Ok a, self') => k a self'
    | (Raise e, self') => (Raise e, self')
    end.

Definition raise {A} (e : exn) : M A := fun self => (Raise e, self).

Definition lift {A} (o : outcome A) : M A := fun self => (o, self).

(** Reading [self]. *)
Definition get : M ModelSelector := fun self => (Ok self, self).

(** self.X, self.lengths = x, l *)
Definition set_X_lengths (x : array) (l : list Z) : M unit :=
  fun self =>
    (Ok tt,
     {| words := words self; hwords := hwords self;
        sequences := sequences self;
        X := x; lengths := l;
        this_word := this_word self; n_constant := n_constant self;
        min_n_components := min_n_components self;
        max_n_components := max_n_components self;
        random_state := random_state self; verbose := verbose self |}).

(** try: body / except: handler (a bare except catches everything; the
    handler starts from the state the body left). *)
Definition try_except {A} (body handler : M A) : M A :=
  fun self =>
    match body self with
    | (Ok a, self') => (Ok a, self')
    | (Raise _, self') => handler self'
    end.

Declare Scope py_scope.
Delimit Scope py_scope with py.
Notation "x <- c ;; k" := (bind c (fun x => k))
  (at level 61, c at next level, right associativity) : py_scope.
Notation "' p <- c ;; k" := (bind c (fun x => let p := x in k))
  (at level 61, p pattern, c at next level, right associativity) : py_scope.
Notation "c ;;; k" := (bind c (fun _ => k))
  (at level 61, right associativity) : py_scope.
Open Scope py_scope.

(** for x in items: st = body x st *)
Fixpoint for_each {A S} (items : list A) (body : A -> S -> M S) (st : S) : M S :=
  match items with
  | [] => ret st
  | x :: rest => st' <- body x st ;; for_each rest body st'
  end.

(** range(lo, hi) *)
Definition py_range (lo hi : Z) : list Z :=
  map (fun k => lo + Z.of_nat k) (seq 0 (Z.to_nat (hi - lo))).

(** sequences[i], with negative indices counted from the end. *)
Definition py_index {A} (l : list A) (i : Z) : outcome A :=
  let n := Z.of_nat (length l) in
  let j := if i <? 0 then i + n else i in
  if (j <? 0) || (n <=? j) then Raise IndexError
  else match nth_error l (Z.to_nat j) with
       | Some a => Ok a
       | None => Raise IndexError
       end.

(** str(z) for a Python int. *)
Definition str_of_int (z : Z) : string := NilZero.string_of_int (Z.to_int z).

(** "model created for {} with {} states".format(word, num_states) *)
Definition created_message (word : string) (num_states : Z) : string :=
  ("model created for " ++ word ++ " with " ++ str_of_int num_states ++ " states")%string.

(** "failure on {} with {} states".format(word, num_states) *)
Definition failure_message (word : string) (num_states : Z) : string :=
  ("failure on " ++ word ++ " with " ++ str_of_int num_states ++ " states")%string.

(** float(z) for a Python int: OverflowError when z is too large. *)
Definition float_of_int (z : Z) : outcome float :=
  match of_Z z with
  | S754_infinity _ => Raise OverflowError
  | f => Ok f
  end.

(** z * x with z an int and x a float. *)
Definition int_mul_float (z : Z) (x : float) : outcome float :=
  match float_of_int z with
  | Ok f => Ok (mul f x)
  | Raise e => Raise e
  end.

Section Model.
Context `{L : Libraries}.

(** math.log(n) for an int n: ValueError unless n is positive. *)
Definition math_log (n : Z) : outcome float :=
  if n <=? 0 then Raise ValueError else Ok (ln n).

(** np.mean(scores): the sum divided by the count; on the empty list
    this is 0.0 / 0, a NaN (numpy only warns). *)
Definition np_mean (scores : list float) : float :=
  div (np_sum scores) (of_Z (Z.of_nat (length scores))).

(** GaussianHMM(n_components=num_states, ..., random_state=seed).fit(X, lengths) *)
Definition GaussianHMM_fit (num_states seed : Z) (x : array) (l : list Z)
  : outcome hmm :=
  match hmm_fit num_states seed x l with
  | Ok (d, p) =>
      Ok {| n_components := num_states; hmm_random_state := seed;
            n_features := d; learned := p |}
  | Raise e => Raise e
  end.

(** model.n_features, where model may be None. *)
Definition attr_n_features (model : option hmm) : M Z :=
  match model with
  | Some m => ret (n_features m)
  | None => raise AttributeError
  end.

(** model.score(x, l), where model may be None. *)
Definition score (model : option hmm) (x : array) (l : list Z) : M float :=
  match model with
  | Some m => lift (hmm_score m x l)
  | None => raise AttributeError
  end.

(** if self.verbose: print(message) *)
Definition announce (message : string) : M unit :=
  self <- get ;;
  if verbose self then lift (py_print message) else ret tt.

(** ModelSelector.base_model: the print of line 42 is inside the try, the
    print of line 46 is in the handler and so outside any try. *)
Definition base_model (num_states : Z) : M (option hmm) :=
  try_except
    (self <- get ;;
     hmm_model <- lift (GaussianHMM_fit num_states (random_state self)
                          (X self) (lengths self)) ;;
     announce (created_message (this_word self) num_states) ;;;
     ret (Some hmm_model))
    (self <- get ;;
     announce (failure_message (this_word self) num_states) ;;;
     ret None).
End Model.

Arguments of_Z : simpl never.
Arguments add : simpl never.
Arguments sub : simpl never.
Arguments mul : simpl never.
Arguments div : simpl never.
Arguments ltb : simpl never.
Arguments leb : simpl never.
Arguments float_of_int : simpl never.
Arguments int_mul_float : simpl never.
Arguments math_log : simpl never.
Arguments np_mean : simpl never.

(** ** ModelSelector.__init__ *)

Fixpoint dict_get {V} (d : list (string * V)) (k : string) : outcome V :=
  match d with
  | [] => Raise KeyError
  | (k', v) :: rest => if String.eqb k' k then Ok v else dict_get rest k
  end.

Definition ModelSelector_init
  (all_word_sequences : list (string * list sequence))
  (all_word_Xlengths : list (string * (array * list Z)))
  (word : string) (n_const min_n max_n seed : Z) (verb : bool)
  : outcome ModelSelector :=
  match dict_get all_word_sequences word with
  | Raise e => Raise e
  | Ok seqs =>
      match dict_get all_word_Xlengths word with
      | Raise e => Raise e
      | Ok (x, l) =>
          Ok {| words := all_word_sequences; hwords := all_word_Xlengths;
                sequences := seqs; X := x; lengths := l;
                this_word := word; n_constant := n_const;
                min_n_components := min_n; max_n_components := max_n;
                random_state := seed; verbose := verb |}
      end
  end.

(** ** sklearn.model_selection.KFold *)

Record KFold : Type := { n_splits : Z }.

(** KFold(n_splits=n): at least two folds are required. *)
Definition KFold_init (n : Z) : outcome KFold :=
  if n <=? 1 then Raise ValueError else Ok {| n_splits := n |}.

(** kf(sequences): KFold offers split and get_n_splits but defines no
    __call__, so applying an instance raises TypeError ('KFold' object is
    not callable) whatever the argument. *)
Definition KFold_call (kf : KFold) (seqs : list sequence)
  : outcome (list (list Z * list Z)) :=
  Raise TypeError.

(** Modelled from the spec: asl_utils.combine_sequences is imported by the
    source but defined elsewhere; it concatenates the segments selected by
    an index list into a (features, lengths) pair. *)
Fixpoint combine_sequences (split_index_list : list Z) (seqs : list sequence)
  : outcome (array * list Z) :=
  match split_index_list with
  | [] => Ok (Frames [], [])
  | i :: rest =>
      match py_index seqs i with
      | Raise e => Raise e
      | Ok sq =>
          match combine_sequences rest seqs with
          | Raise e => Raise e
          | Ok (Frames rows, ls) =>
              Ok (Frames (sq ++ rows), Z.of_nat (length sq) :: ls)
          | Ok (Index _, _) => Raise TypeError
          end
      end
  end.

(** ** The selectors *)

Module SelectorConstant.
Section Select.
Context `{L : Libraries}.

Definition select : M (option hmm) :=
  self <- get ;;
  let best_num_components := n_constant self in
  base_model best_num_components.

End Select.
End SelectorConstant.

Module SelectorBIC.
Section Select.
Context `{L : Libraries}.

(** Lines 85-87: the fitted candidate and its BIC score. *)
Definition candidate_score (idx : Z) : M (option hmm * float) :=
  model <- base_model idx ;;
  d <- attr_n_features model ;;
  let parameters_n := idx ^ 2 + 2 * idx * d - 1 in
  self <- get ;;
  logL <- score model (X self) (lengths self) ;;
  a <- lift (int_mul_float (-2) logL) ;;
  lg <- lift (math_log (len (X self))) ;;
  b <- lift (int_mul_float parameters_n lg) ;;
  ret (model, add a b).

(** Lines 83-94: one iteration; the loop state is (lowest_score, best_model). *)
Definition candidate (idx : Z) (st : float * option hmm) : M (float * option hmm) :=
  try_except
    (' (model, sc) <- candidate_score idx ;;
     if ltb sc (fst st) then ret (sc, model) else ret st)
    (ret st).

Definition select : M (option hmm) :=
  let lowest_score := inf in
  self <- get ;;
  best_model <- base_model (n_constant self) ;;
  self <- get ;;
  st <- for_each (py_range (min_n_components self) (max_n_components self + 1))
          candidate (lowest_score, best_model) ;;
  ret (snd st).

End Select.
End SelectorBIC.

Module SelectorDIC.
Section Select.
Context `{L : Libraries}.

(** Lines 123-125: one item of self.hwords.items(). *)
Definition other_word (model : option hmm) (item : string * (array * list Z))
  (scores : list float) : M (list float) :=
  let '(word, (test_x, test_lengths)) := item in
  self <- get ;;
  if negb (String.eqb word (this_word self))
  then s <- score model test_x test_lengths ;; ret (scores ++ [s])
  else ret scores.

(** Lines 120-128: the fitted candidate and its DIC score. *)
Definition candidate_score (i : Z) : M (option hmm * float) :=
  model <- base_model i ;;
  self <- get ;;
  scores <- for_each (hwords self) (other_word model) [] ;;
  self <- get ;;
  model_score <- score model (X self) (lengths self) ;;
  ret (model, sub model_score (np_mean scores)).

(** Lines 118-135: one iteration; the loop state is (highest_score, best_model). *)
Definition candidate (i : Z) (st : float * option hmm) : M (float * option hmm) :=
  try_except
    (' (model, sc) <- candidate_score i ;;
     if ltb (fst st) sc then ret (sc, model) else ret st)
    (ret st).

Definition select : M (option hmm) :=
  let highest_score := neg_inf in
  self <- get ;;
  best_model <- base_model (n_constant self) ;;
  self <- get ;;
  st <- for_each (py_range (min_n_components self) (max_n_components self + 1))
          candidate (highest_score, best_model) ;;
  ret (snd st).

End Select.
End SelectorDIC.

Module SelectorCV.
Section Select.
Context `{L : Libraries}.

Definition splits : Z := 3.

(** Lines 158-162: the body of the fold loop. *)
Definition fold (idx : Z) (split : list Z * list Z) (scores_arr : list float)
  : M (list float) :=
  let '(train_idx, test_idx) := split in
  self <- get ;;
  ' (x, l) <- lift (combine_sequences test_idx (sequences self)) ;;
  set_X_lengths x l ;;;
  self <- get ;;
  ' (test_x, test_length) <- lift (combine_sequences train_idx (sequences self)) ;;
  train_model <- base_model idx ;;
  s <- score train_model (Index train_idx) test_length ;;
  ret (scores_arr ++ [s]).

(** Lines 154-162: the fitted candidate and its list of fold scores. *)
Definition candidate_scores (idx : Z) : M (option hmm * list float) :=
  model <- base_model idx ;;
  kf <- lift (KFold_init splits) ;;
  self <- get ;;
  folds <- lift (KFold_call kf (sequences self)) ;;
  scores_arr <- for_each folds (fold idx) [] ;;
  ret (model, scores_arr).

(** Lines 153-169: one iteration; the loop state is (highest_score, best_model). *)
Definition candidate (idx : Z) (st : float * option hmm) : M (float * option hmm) :=
  try_except
    (' (model, scores_arr) <- candidate_scores idx ;;
     if ltb (fst st) (np_mean scores_arr)
     then ret (np_mean scores_arr, model) else ret st)
    (ret st).

Definition select : M (option hmm) :=
  let highest_score := neg_inf in
  self <- get ;;
  best_model <- base_model (n_constant self) ;;
  self <- get ;;
  st <- for_each (py_range (min_n_components self) (max_n_components self + 1))
          candidate (highest_score, best_model) ;;
  ret (snd st).

End Select.
End SelectorCV.

(** The strategy pattern: the four subclasses of ModelSelector. *)
Inductive criterion : Type := BIC | DIC | CV.
Inductive strategy : Type := Constant | Search (c : criterion).

Definition select `{L : Libraries} (s : strategy) : M (option hmm) :=
  match s with
  | Constant => SelectorConstant.select
  | Search BIC => SelectorBIC.select
  | Search DIC => SelectorDIC.select
  | Search CV => SelectorCV.select
  end.

(** ** Vocabulary of the statements *)

Definition outcome_to_option {A} (o : outcome A) : option A :=
  match o with
  | Ok a => Some a
  | Raise _ => None
  end.

Section Vocabulary.
Context `{L : Libraries}.

(** The model base_model returns on [self] for a number of states; None
    when it returns None (the fit raised, or the print after the fit did)
    and when it raises. *)
Definition fitted (self : ModelSelector) (num_states : Z) : option hmm :=
  match fst (base_model num_states self) with
  | Ok model => model
  | Raise _ => None
  end.

(** The Fixed-strategy model, fitted with n_constant states. *)
Definition fallback (self : ModelSelector) : option hmm :=
  fitted self (n_constant self).

(** What the call base_model(self.n_constant) that opens every select
    returns or raises. *)
Definition fixed (self : ModelSelector) : outcome (option hmm) :=
  fst (base_model (n_constant self) self).

(** The candidate sizes, in scan order. *)
Definition candidates (self : ModelSelector) : list Z :=
  py_range (min_n_components self) (max_n_components self + 1).

(** The per-candidate evaluation (the try body up to the comparison) of
    each searching strategy; SelectorCV compares the mean of its fold scores. *)
Definition candidate_eval (c : criterion) (n : Z) : M (option hmm * float) :=
  match c with
  | BIC => SelectorBIC.candidate_score n
  | DIC => SelectorDIC.candidate_score n
  | CV => ' (model, scores_arr) <- SelectorCV.candidate_scores n ;;
          ret (model, np_mean scores_arr)
  end.

(** The same, as an option: None when the try body raised. *)
Definition evaluated (c : criterion) (self : ModelSelector) (n : Z)
  : option (option hmm * float) :=
  outcome_to_option (fst (candidate_eval c n self)).

(** The comparison that replaces the running best (line 89: score <
    lowest_score; lines 130 and 164: score > highest_score), its
    non-strict version and the initial running score. *)
Definition better (c : criterion) (s best : float) : bool :=
  match c with
  | BIC => ltb s best
  | DIC | CV => ltb best s
  end.

Definition at_least (c : criterion) (s best : float) : bool :=
  match c with
  | BIC => leb s best
  | DIC | CV => leb best s
  end.

Definition initial_score (c : criterion) : float :=
  match c with
  | BIC => inf
  | DIC | CV => neg_inf
  end.

(** One iteration of the candidate loop of each search. *)
Definition search_step (c : criterion) : Z -> float * option hmm -> M (float * option hmm) :=
  match c with
  | BIC => SelectorBIC.candidate
  | DIC => SelectorDIC.candidate
  | CV => SelectorCV.candidate
  end.

(** Candidate [n] reached the comparison with model [m] and score [s]. *)
Definition scored (c : criterion) (self : ModelSelector) (n : Z) (m : hmm) (s : float)
  : Prop :=
  In n (candidates self) /\ fst (candidate_eval c n self) = Ok (Some m, s).

(** The number of free parameters and the criterion of section 4.3. *)
Definition free_parameters (n d : Z) : Z := n ^ 2 + 2 * n * d - 1.

Definition BIC_value (logL : float) (p N : Z) : float :=
  add (mul (of_Z (-2)) logL) (mul (of_Z p) (ln N)).

(** The items of the collection other than the target, in dict order. *)
Definition other_items (self : ModelSelector) : list (string * (array * list Z)) :=
  filter (fun item => negb (String.eqb (fst item) (this_word self))) (hwords self).

(** [m] scores the listed items with the listed log-likelihoods. *)
Definition scores_of (m : hmm) (items : list (string * (array * list Z)))
  (ss : list float) : Prop :=
  Forall2 (fun item s => hmm_score m (fst (snd item)) (snd (snd item)) = Ok s) items ss.

(** [n], scored [s], is the first of the best candidates: no scored
    candidate is strictly better, and no earlier one is as good.  For BIC
    better means lower, for DIC and CV higher. *)
Definition first_best (c : criterion) (self : ModelSelector) (n : Z) (s : float)
  : Prop :=
  forall n' m' s', scored c self n' m' s' ->
    better c s' s = false /\ (n' < n -> at_least c s' s = false).

(** The selection rule read literally: the model of the first of the best
    scored candidates is what select returns. *)
Definition returns_first_best (c : criterion) (self : ModelSelector) : Prop :=
  forall n m s, scored c self n m s -> first_best c self n s ->
    fst (select (Search c) self) = Ok (Some m).

End Vocabulary.

(** ** The keep-the-best scan, as a pure fold *)

Section Scan.
Context {T : Type}.
Variable eval : Z -> option (T * float).
Variable better : float -> float -> bool.

Definition scan_step (st : float * T) (n : Z) : float * T :=
  match eval n with
  | Some (m, s) => if better s (fst st) then (s, m) else st
  | None => st
  end.

Definition scan (l : list Z) (st : float * T) : float * T :=
  fold_left scan_step l st.

End Scan.

(** ** The order of floats through a rank

    Every float but NaN has a rank in Z * Z * Z whose lexicographic order
    is the order [SFcompare] computes. *)

Definition rank (x : float) : option (Z * Z * Z) :=
  match x with
  | S754_nan => None
  | S754_infinity true => Some (-2, 0, 0)
  | S754_infinity false => Some (2, 0, 0)
  | S754_zero _ => Some (0, 0, 0)
  | S754_finite true m e => Some (-1, - e, - Zpos m)
  | S754_finite false m e => Some (1, e, Zpos m)
  end.

Definition lex_lt (a b : Z * Z * Z) : Prop :=
  let '(a1, a2, a3) := a in
  let '(b1, b2, b3) := b in
  a1 < b1 \/ (a1 = b1 /\ (a2 < b2 \/ (a2 = b2 /\ a3 < b3))).

(** ** Concrete collaborators and selectors, for evaluation *)

(** [k] frames of two features each. *)
Definition frames (k : nat) : array := Frames (repeat [zero; zero] k).

(** A fitter that needs at least as many frames as states, and a score
    that peaks at three states and scales with the number of frames. *)
Definition demo_lib : Libraries := {|
  params := Z;
  hmm_fit := fun n seed x l =>
    if (n <=? 0) || (len x <? n) then Raise (LibraryError 1) else Ok (2, n);
  hmm_score := fun m x l =>
    match x with
    | Frames rows => Ok (of_Z (- ((n_components m - 3) ^ 2) * len x - 1))
    | Index _ => Raise (LibraryError 2)
    end;
  ln := fun n => of_Z (Z.log2 n);
  np_sum := fun l => fold_left add l zero;
  py_print := fun message => Ok tt
|}.

(** The same collaborators with stdout closed: every print raises
    ValueError (I/O operation on closed file). *)
Definition closed_stdout_lib : Libraries := {|
  params := Z;
  hmm_fit := fun n seed x l =>
    if (n <=? 0) || (len x <? n) then Raise (LibraryError 1) else Ok (2, n);
  hmm_score := fun m x l =>
    match x with
    | Frames rows => Ok (of_Z (- ((n_components m - 3) ^ 2) * len x - 1))
    | Index _ => Raise (LibraryError 2)
    end;
  ln := fun n => of_Z (Z.log2 n);
  np_sum := fun l => fold_left add l zero;
  py_print := fun message => Raise ValueError
|}.

(** The same fitter with a score that underflows to -inf on observation
    sets of four frames or more. *)
Definition underflow_lib : Libraries := {|
  params := Z;
  hmm_fit := fun n seed x l =>
    if (n <=? 0) || (len x <? n) then Raise (LibraryError 1) else Ok (2, n);
  hmm_score := fun m x l =>
    if 4 <=? len x then Ok neg_inf else Ok (of_Z (- len x));
  ln := fun n => of_Z (Z.log2 n);
  np_sum := fun l => fold_left add l zero;
  py_print := fun message => Ok tt
|}.

Definition demo_sequences (ks : list nat) : list sequence :=
  map (repeat [zero; zero]) ks.

(** Two words: JOHN with three sequences of two, two and one frames, BOOK
    with one sequence of two frames. *)
Definition demo_self (min_n max_n : Z) : ModelSelector := {|
  words := [("JOHN"%string, demo_sequences [2; 2; 1]%nat);
            ("BOOK"%string, demo_sequences [2]%nat)];
  hwords := [("JOHN"%string, (frames 5, [2; 2; 1]));
             ("BOOK"%string, (frames 2, [2]))];
  sequences := demo_sequences [2; 2; 1]%nat;
  X := frames 5;
  lengths := [2; 2; 1];
  this_word := "JOHN"%string;
  n_constant := 3;
  min_n_components := min_n;
  max_n_components := max_n;
  random_state := 14;
  verbose := false
|}.

(** A collection that holds the target word only, with a single sequence. *)
Definition lone_self : ModelSelector := {|
  words := [("JOHN"%string, demo_sequences [5]%nat)];
  hwords := [("JOHN"%string, (frames 5, [5]))];
  sequences := demo_sequences [5]%nat;
  X := frames 5;
  lengths := [5];
  this_word := "JOHN"%string;
  n_constant := 3;
  min_n_components := 2;
  max_n_components := 10;
  random_state := 14;
  verbose := false
|}.

(** The model both concrete fitters yield for [n] states. *)
Definition demo_model (n : Z) : GaussianHMM Z :=
  {| n_components := n; hmm_random_state := 14; n_features := 2; learned := n |}.

(** ** Agreement of two selectors on what a strategy reads *)

(** The same observations, fallback size, lower bound and seed, and the
    same word and verbosity for the diagnostic prints. *)
Definition same_item (self self' : ModelSelector) : Prop :=
  X self = X self' /\ lengths self = lengths self' /\
  n_constant self = n_constant self' /\
  min_n_components self = min_n_components self' /\
  random_state self = random_state self' /\
  this_word self = this_word self' /\ verbose self = verbose self'.

(** The same cross-item mapping and target word. *)
Definition same_collection (self self' : ModelSelector) : Prop :=
  hwords self = hwords self' /\ this_word self = this_word self'.

(** The keys of a dict, in order. *)
Definition keys {V} (d : list (string * V)) : list string := map fst d.

(** JOHN with no frame at all. *)
Definition empty_self : ModelSelector := {|
  words := [("JOHN"%string, [])];
  hwords := [("JOHN"%string, (frames 0, []))];
  sequences := [];
  X := frames 0;
  lengths := [];
  this_word := "JOHN"%string;
  n_constant := 3;
  min_n_components := 2;
  max_n_components := 4;
  random_state := 14;
  verbose := false
|}.

(** The observations and configuration of [demo_self 2 10] in an object
    whose dicts and sequence list are empty. *)
Definition bare_self : ModelSelector := {|
  words := [];
  hwords := [];
  sequences := [];
  X := frames 5;
  lengths := [2; 2; 1];
  this_word := "JOHN"%string;
  n_constant := 3;
  min_n_components := 2;
  max_n_components := 10;
  random_state := 14;
  verbose := false
|}.

(** [lone_self] with verbose set. *)
Definition loud_self : ModelSelector := {|
  words := [("JOHN"%string, demo_sequences [5]%nat)];
  hwords := [("JOHN"%string, (frames 5, [5]))];
  sequences := demo_sequences [5]%nat;
  X := frames 5;
  lengths := [5];
  this_word := "JOHN"%string;
  n_constant := 3;
  min_n_components := 2;
  max_n_components := 10;
  random_state := 14;
  verbose := true
|}.

(** * Properties *)

(** ** Floats *)

Lemma ltb_rank (x y : float) :
  ltb x y = true <->
  exists a b, rank x = Some a /\ rank y = Some b /\ lex_lt a b.
Proof.
  unfold ltb, SFltb, SFcompare.
  destruct x as [sx|sx| |sx mx ex], y as [sy|sy| |sy my ey];
    try destruct sx; try destruct sy; simpl;
    try (split;
         [discriminate
         | intros (a & b & Ha & Hb & Hl); inversion Ha; inversion Hb; subst;
           simpl in Hl; lia]);
    try (split;
         [intros _; eexists; eexists;
          split; [reflexivity | split; [reflexivity | simpl; lia]]
         | reflexivity]);
    try (split; [discriminate | intros (a & b & Ha & Hb & Hl); discriminate]).
  all: rewrite ?Pos.compare_cont_spec; simpl.
  all: destruct (Z.compare_spec ex ey); try destruct (Pos.compare_spec mx my); simpl;
    try (split;
         [discriminate
         | intros (a & b & Ha & Hb & Hl); inversion Ha; inversion Hb; subst;
           simpl in Hl; lia]);
    try (split;
         [intros _; eexists; eexists;
          split; [reflexivity | split; [reflexivity | simpl; lia]]
         | reflexivity]).
Qed.

Lemma leb_rank (x y : float) :
  leb x y = true <->
  exists a b, rank x = Some a /\ rank y = Some b /\ (lex_lt a b \/ a = b).
Proof.
  unfold leb, SFleb, SFcompare.
  destruct x as [sx|sx| |sx mx ex], y as [sy|sy| |sy my ey];
    try destruct sx; try destruct sy; simpl;
    try (split;
         [discriminate
         | intros (a & b & Ha & Hb & [Hl | Hl]);
           [inversion Ha; inversion Hb; subst; simpl in Hl; lia
           | subst b; rewrite <- Ha in Hb; discriminate]]);
    try (split;
         [intros _; eexists; eexists;
          split; [reflexivity | split; [reflexivity | simpl; first [left; lia | right; reflexivity]]]
         | reflexivity]);
    try (split; [discriminate | intros (a & b & Ha & Hb & Hl); discriminate]).
  all: rewrite ?Pos.compare_cont_spec; simpl.
  all: destruct (Z.compare_spec ex ey); try destruct (Pos.compare_spec mx my); simpl;
    try (split;
         [discriminate
         | intros (a & b & Ha & Hb & [Hl | Hl]);
           [inversion Ha; inversion Hb; subst; simpl in Hl; lia
           | subst b; rewrite <- Ha in Hb; inversion Hb; lia]]);
    try (split;
         [intros _; eexists; eexists;
          split; [reflexivity | split; [reflexivity | simpl; first [left; lia | right; f_equal; f_equal; lia]]]
         | reflexivity]).
Qed.

Ltac by_rank :=
  repeat match goal with
    | H : ltb _ _ = true |- _ => apply ltb_rank in H; destruct H as (? & ? & ? & ? & ?)
    | H : leb _ _ = true |- _ => apply leb_rank in H; destruct H as (? & ? & ? & ? & ?)
    end.

Ltac same_rank :=
  repeat match goal with
    | H : rank ?x = Some ?a, H' : rank ?x = Some ?b |- _ =>
        rewrite H in H'; injection H' as H'; subst b
    end.

Ltac open_ranks :=
  repeat match goal with
    | a : (Z * Z * Z)%type |- _ => destruct a as [[? ?] ?]
    end;
  unfold lex_lt in *.

Lemma not_true_false (b : bool) : (b = true -> False) -> b = false.
Proof. destruct b; [intros H; exfalso; now apply H | reflexivity]. Qed.

Lemma ltb_false_rank (x y : float) a b :
  ltb x y = false -> rank x = Some a -> rank y = Some b -> ~ lex_lt a b.
Proof.
  intros Hf Ha Hb Hl.
  assert (ltb x y = true) as Ht
    by (apply ltb_rank; exists a, b; repeat split; assumption).
  congruence.
Qed.

Lemma ltb_trans (a b c : float) :
  ltb a b = true -> ltb b c = true -> ltb a c = true.
Proof.
  intros Hab Hbc. by_rank. same_rank.
  apply ltb_rank. do 2 eexists. repeat split; try eassumption.
  open_ranks. lia.
Qed.

Lemma ltb_irrefl (a : float) : ltb a a = false.
Proof.
  apply not_true_false; intros H. by_rank. same_rank. open_ranks. lia.
Qed.

Lemma ltb_leb (a b : float) : ltb a b = true -> leb a b = true.
Proof.
  intros H. by_rank. apply leb_rank. do 2 eexists.
  repeat split; try eassumption. now left.
Qed.

Lemma leb_false_ltb (a b : float) : leb a b = false -> ltb a b = false.
Proof.
  intros H. apply not_true_false; intros Hl.
  apply ltb_leb in Hl. congruence.
Qed.

Lemma ltb_not_leb (a b : float) : ltb a b = true -> leb b a = false.
Proof.
  intros H. apply not_true_false; intros H'. by_rank. same_rank.
  open_ranks.
  match goal with
  | Hor : _ \/ (_, _, _) = _ |- _ =>
      destruct Hor as [Hor | Hor]; [lia | inversion Hor; subst; lia]
  end.
Qed.

(** a < b and not (c < b) leave no room for c <= a. *)
Lemma below_excludes (a b c : float) :
  ltb a b = true -> ltb c b = false -> leb c a = false.
Proof.
  intros Hab Hcb. apply not_true_false; intros Hca. by_rank. same_rank.
  match goal with
  | Hc : rank c = Some ?rc, Hb : rank b = Some ?rb |- _ =>
      pose proof (ltb_false_rank _ _ _ _ Hcb Hc Hb) as Hn
  end.
  open_ranks.
  match goal with
  | Hor : _ \/ (_, _, _) = _ |- _ =>
      destruct Hor as [Hor | Hor]; [lia | inversion Hor; subst; lia]
  end.
Qed.

(** b < a and not (b < c) leave no room for a <= c. *)
Lemma above_excludes (a b c : float) :
  ltb b a = true -> ltb b c = false -> leb a c = false.
Proof.
  intros Hba Hbc. apply not_true_false; intros Hac. by_rank. same_rank.
  match goal with
  | Hc : rank c = Some ?rc, Hb : rank b = Some ?rb |- _ =>
      pose proof (ltb_false_rank _ _ _ _ Hbc Hb Hc) as Hn
  end.
  open_ranks.
  match goal with
  | Hor : _ \/ (_, _, _) = _ |- _ =>
      destruct Hor as [Hor | Hor]; [lia | inversion Hor; subst; lia]
  end.
Qed.

Lemma ltb_nan_l (x : float) : ltb nan x = false.
Proof. reflexivity. Qed.

Lemma ltb_nan_r (x : float) : ltb x nan = false.
Proof. destruct x as [[|]|[|]| |[|] ? ?]; reflexivity. Qed.


(** ** Ranges *)

Lemma py_range_In (lo hi n : Z) : In n (py_range lo hi) <-> lo <= n < hi.
Proof.
  unfold py_range. rewrite in_map_iff. split.
  - intros (k & <- & Hk). apply in_seq in Hk. lia.
  - intros H. exists (Z.to_nat (n - lo)). split; [lia |].
    apply in_seq. lia.
Qed.

Lemma seq_split_lt (start count : nat) pre k post :
  seq start count = pre ++ k :: post ->
  (forall j, In j pre -> (j < k)%nat) /\ (forall j, In j post -> (k < j)%nat).
Proof.
  revert start pre. induction count as [|count IH]; intros start pre Heq.
  - destruct pre; discriminate.
  - simpl in Heq. destruct pre as [|p pre]; simpl in Heq.
    + injection Heq as <- <-. split; [intros j [] |].
      intros j Hj. apply in_seq in Hj. lia.
    + injection Heq as <- Heq.
      assert (In k (seq (S start) count)) as Hk
        by (rewrite Heq; apply in_or_app; right; now left).
      apply in_seq in Hk.
      destruct (IH _ _ Heq) as [Hpre Hpost]. split; [| exact Hpost].
      intros j [<- | Hj]; [lia | now apply Hpre].
Qed.

Lemma py_range_split (lo hi : Z) pre n post :
  py_range lo hi = pre ++ n :: post ->
  (forall n', In n' pre -> n' < n) /\ (forall n', In n' post -> n < n').
Proof.
  unfold py_range. intros Heq.
  apply map_eq_app in Heq. destruct Heq as (l1 & l2 & Hseq & Hpre & Hrest).
  destruct l2 as [|k l2]; [discriminate |]. simpl in Hrest.
  injection Hrest as Hn Hpost. subst pre post n.
  destruct (seq_split_lt _ _ _ _ _ Hseq) as [H1 H2].
  split; intros n' Hin; apply in_map_iff in Hin; destruct Hin as (j & <- & Hj).
  - apply H1 in Hj. lia.
  - apply H2 in Hj. lia.
Qed.

(** ** The keep-the-best scan *)

Section ScanFacts.
Context {T : Type}.
Variable eval : Z -> option (T * float).
Variables better at_least : float -> float -> bool.
Hypothesis better_trans :
  forall a b c, better a b = true -> better b c = true -> better a c = true.
Hypothesis better_not_at_least :
  forall a b, better a b = true -> at_least b a = false.
Hypothesis better_excludes :
  forall a b c, better a b = true -> better c b = false -> at_least c a = false.

(** Either nothing beat the initial score and the state is untouched, or
    the state holds the first of the best candidates of the list. *)
Lemma scan_spec (l : list Z) (st0 : float * T) :
  (scan eval better l st0 = st0 /\
   forall n m s, In n l -> eval n = Some (m, s) -> better s (fst st0) = false)
  \/
  (exists pre n post m s,
      l = pre ++ n :: post /\ eval n = Some (m, s) /\
      scan eval better l st0 = (s, m) /\
      better s (fst st0) = true /\
      (forall n' m' s', In n' pre -> eval n' = Some (m', s') -> at_least s' s = false) /\
      (forall n' m' s', In n' post -> eval n' = Some (m', s') -> better s' s = false)).
Proof.
  revert st0. induction l as [|x l IH]; intros st0.
  - left. split; [reflexivity | intros n m s []].
  - unfold scan in *. simpl fold_left.
    destruct (IH (scan_step eval better st0 x))
      as [[Hsame Hnone] | (pre & n & post & m & s & Hl & Hn & Hres & Hbet & Hpre & Hpost)].
    + unfold scan_step in Hsame, Hnone |- *.
      destruct (eval x) as [[mx sx]|] eqn:Hx.
      * destruct (better sx (fst st0)) eqn:Hb.
        -- right. exists [], x, l, mx, sx. simpl in Hnone.
           split; [reflexivity |]. split; [assumption |].
           split; [exact Hsame |]. split; [assumption |].
           split; [intros n' m' s' [] | exact Hnone].
        -- left. split; [assumption |].
           intros n m s [<- | Hin] He.
           ++ rewrite Hx in He. injection He as <- <-. assumption.
           ++ eapply Hnone; eassumption.
      * left. split; [assumption |].
        intros n m s [<- | Hin] He; [congruence | eapply Hnone; eassumption].
    + right. exists (x :: pre), n, post, m, s.
      split; [simpl; now rewrite Hl |]. split; [assumption |].
      unfold scan_step in Hres, Hbet |- *.
      destruct (eval x) as [[mx sx]|] eqn:Hx.
      * destruct (better sx (fst st0)) eqn:Hb; simpl in Hbet.
        -- split; [exact Hres |].
           split; [eapply better_trans; eassumption |].
           split; [| exact Hpost].
           intros n' m' s' [<- | Hin] He.
           ++ rewrite Hx in He. injection He as <- <-.
              now apply better_not_at_least.
           ++ eapply Hpre; eassumption.
        -- split; [exact Hres |]. split; [assumption |].
           split; [| exact Hpost].
           intros n' m' s' [<- | Hin] He.
           ++ rewrite Hx in He. injection He as <- <-.
              eapply better_excludes; eassumption.
           ++ eapply Hpre; eassumption.
      * split; [exact Hres |]. split; [assumption |].
        split; [| exact Hpost].
        intros n' m' s' [<- | Hin] He; [congruence | eapply Hpre; eassumption].
Qed.

End ScanFacts.

(** ** Running the methods *)

Section Runs.
Context `{L : Libraries}.

(** base_model, outcome by outcome. *)
Lemma base_model_unfold (n : Z) (self : ModelSelector) :
  base_model n self =
  (match GaussianHMM_fit n (random_state self) (X self) (lengths self) with
   | Ok m =>
       if verbose self then
         match py_print (created_message (this_word self) n) with
         | Ok _ => Ok (Some m)
         | Raise _ =>
             match py_print (failure_message (this_word self) n) with
             | Ok _ => Ok None
             | Raise e => Raise e
             end
         end
       else Ok (Some m)
   | Raise _ =>
       if verbose self then
         match py_print (failure_message (this_word self) n) with
         | Ok _ => Ok None
         | Raise e => Raise e
         end
       else Ok None
   end, self).
Proof.
  destruct self as [ws hs sq x l w nc lo hi seed v].
  unfold base_model, try_except, announce, bind, get, lift, ret.
  cbn [verbose this_word random_state X lengths].
  destruct (GaussianHMM_fit n seed x l) as [m|e]; destruct v;
    cbn [verbose this_word]; try reflexivity.
  - destruct (py_print (created_message w n)) as [[]|e1];
      cbn [verbose this_word]; [reflexivity |].
    destruct (py_print (failure_message w n)) as [[]|e2]; reflexivity.
  - destruct (py_print (failure_message w n)) as [[]|e2]; reflexivity.
Qed.

Lemma base_model_state (n : Z) (self : ModelSelector) :
  snd (base_model n self) = self.
Proof. now rewrite base_model_unfold. Qed.

Lemma base_model_outcome (n : Z) (self : ModelSelector) :
  base_model n self = (fst (base_model n self), self).
Proof.
  pose proof (base_model_state n self) as Hs.
  destruct (base_model n self) as [o self']. simpl in Hs. now subst self'.
Qed.

(** base_model returns [fitted self n], or it raises. *)
Lemma base_model_cases (n : Z) (self : ModelSelector) :
  base_model n self = (Ok (fitted self n), self) \/
  exists e, base_model n self = (Raise e, self) /\ fitted self n = None.
Proof.
  unfold fitted. rewrite (base_model_outcome n self).
  destruct (fst (base_model n self)) as [model|e]; [now left | right].
  now exists e.
Qed.

(** It raises only under verbose, and then what the print in its handler raised. *)
Lemma base_model_Raise (n : Z) (self : ModelSelector) (e : exn) :
  fst (base_model n self) = Raise e ->
  verbose self = true /\ py_print (failure_message (this_word self) n) = Raise e.
Proof.
  rewrite base_model_unfold. simpl.
  destruct (GaussianHMM_fit n (random_state self) (X self) (lengths self)) as [m|e0];
    destruct (verbose self); try discriminate.
  - destruct (py_print (created_message (this_word self) n)) as [[]|e1];
      [discriminate |].
    destruct (py_print (failure_message (this_word self) n)) as [[]|e2];
      [discriminate |].
    intros H. injection H as <-. now split.
  - destruct (py_print (failure_message (this_word self) n)) as [[]|e2];
      [discriminate |].
    intros H. injection H as <-. now split.
Qed.

Lemma base_model_quiet (n : Z) (self : ModelSelector) :
  verbose self = false -> base_model n self = (Ok (fitted self n), self).
Proof.
  intros Hq. destruct (base_model_cases n self) as [H | (e & H & _)]; [exact H |].
  assert (fst (base_model n self) = Raise e) as Hr by now rewrite H.
  apply base_model_Raise in Hr. destruct Hr as [Hv _]. congruence.
Qed.

(** A model is returned only if the fit returned it. *)
Lemma fitted_fit (self : ModelSelector) (n : Z) (m : hmm) :
  fitted self n = Some m ->
  GaussianHMM_fit n (random_state self) (X self) (lengths self) = Ok m.
Proof.
  unfold fitted. rewrite base_model_unfold. simpl.
  destruct (GaussianHMM_fit n (random_state self) (X self) (lengths self)) as [m0|e0];
    destruct (verbose self).
  - destruct (py_print (created_message (this_word self) n)) as [[]|e1].
    + intros H. now injection H as <-.
    + destruct (py_print (failure_message (this_word self) n)); discriminate.
  - intros H. now injection H as <-.
  - destruct (py_print (failure_message (this_word self) n)); discriminate.
  - discriminate.
Qed.


Lemma fit_Raise_fitted (n : Z) (self : ModelSelector) (e : exn) :
  GaussianHMM_fit n (random_state self) (X self) (lengths self) = Raise e ->
  fitted self n = None.
Proof.
  intros He. unfold fitted. rewrite base_model_unfold, He. simpl.
  destruct (verbose self); [| reflexivity].
  destruct (py_print (failure_message (this_word self) n)); reflexivity.
Qed.

Lemma fitted_n_components (self : ModelSelector) (n : Z) (m : hmm) :
  fitted self n = Some m -> n_components m = n.
Proof.
  intros H. apply fitted_fit in H. unfold GaussianHMM_fit in H.
  destruct (hmm_fit n (random_state self) (X self) (lengths self)) as [[d p]|e];
    [| discriminate].
  injection H as <-. reflexivity.
Qed.

(** Binding the result of base_model. *)
Lemma bind_base_model {B} (n : Z) (k : option hmm -> M B) (self : ModelSelector) :
  bind (base_model n) k self
  = match fst (base_model n self) with
    | Ok model => k model self
    | Raise e => (Raise e, self)
    end.
Proof.
  unfold bind. rewrite (base_model_outcome n self).
  destruct (fst (base_model n self)); reflexivity.
Qed.

Lemma for_each_pure {A S} (f : S -> A -> S) (body : A -> S -> M S)
  (self : ModelSelector) (l : list A) :
  (forall x st, In x l -> body x st self = (Ok (f st x), self)) ->
  forall st, for_each l body st self = (Ok (fold_left f l st), self).
Proof.
  induction l as [|x l IH]; intros Hbody st; simpl.
  - reflexivity.
  - unfold bind. rewrite Hbody by now left.
    apply IH. intros y st' Hy. apply Hbody. now right.
Qed.

Lemma for_each_state {A S} (body : A -> S -> M S) (l : list A) :
  (forall x st self, snd (body x st self) = self) ->
  forall st self, snd (for_each l body st self) = self.
Proof.
  intros Hbody. induction l as [|x l IH]; intros st self; simpl.
  - reflexivity.
  - unfold bind. specialize (Hbody x st self).
    destruct (body x st self) as [[st'|e] self']; simpl in Hbody; subst self'.
    + apply IH.
    + reflexivity.
Qed.

Lemma bind_state {A B} (c : M A) (k : A -> M B) (self : ModelSelector) :
  snd (c self) = self -> (forall a, snd (k a self) = self) ->
  snd (bind c k self) = self.
Proof.
  unfold bind. intros Hc Hk.
  destruct (c self) as [[a|e] self']; simpl in Hc; subst self';
    [apply Hk | reflexivity].
Qed.

Lemma score_state (model : option hmm) x l self :
  snd (score model x l self) = self.
Proof. destruct model; reflexivity. Qed.

Lemma attr_n_features_state (model : option hmm) self :
  snd (attr_n_features model self) = self.
Proof. destruct model; reflexivity. Qed.

Ltac keeps_state :=
  repeat first
    [ apply bind_state; [| intros ?]
    | apply score_state
    | apply attr_n_features_state
    | apply base_model_state
    | reflexivity ].

Lemma BIC_score_state (n : Z) (self : ModelSelector) :
  snd (SelectorBIC.candidate_score n self) = self.
Proof. unfold SelectorBIC.candidate_score. keeps_state. Qed.

Lemma other_word_state (model : option hmm) item scores self :
  snd (SelectorDIC.other_word model item scores self) = self.
Proof.
  destruct item as [word [test_x test_lengths]].
  unfold SelectorDIC.other_word. apply bind_state; [reflexivity |].
  intros s. destruct (negb (word =? this_word s)%string); keeps_state.
Qed.

Lemma DIC_score_state (n : Z) (self : ModelSelector) :
  snd (SelectorDIC.candidate_score n self) = self.
Proof.
  unfold SelectorDIC.candidate_score.
  apply bind_state; [apply base_model_state | intros model].
  apply bind_state; [reflexivity | intros s].
  apply bind_state;
    [apply for_each_state; intros; apply other_word_state | intros scores].
  keeps_state.
Qed.

(** Applying the KFold object raises TypeError, unless base_model raised
    before it. *)
Lemma CV_scores_run (n : Z) (self : ModelSelector) :
  (fst (base_model n self) = Ok (fitted self n) /\
   SelectorCV.candidate_scores n self = (Raise TypeError, self)) \/
  (exists e, fst (base_model n self) = Raise e /\
             SelectorCV.candidate_scores n self = (Raise e, self)).
Proof.
  destruct (base_model_cases n self) as [Hb | (e & Hb & _)]; [left | right; exists e];
    (split; [now rewrite Hb |]);
    unfold SelectorCV.candidate_scores; unfold bind at 1; rewrite Hb; reflexivity.
Qed.

Lemma CV_scores_raise (n : Z) (self : ModelSelector) :
  exists e, SelectorCV.candidate_scores n self = (Raise e, self).
Proof.
  destruct (CV_scores_run n self) as [[_ H] | (e & _ & H)];
    [now exists TypeError | now exists e].
Qed.

Lemma candidate_eval_state (c : criterion) (n : Z) (self : ModelSelector) :
  snd (candidate_eval c n self) = self.
Proof.
  destruct c; simpl.
  - apply BIC_score_state.
  - apply DIC_score_state.
  - unfold bind. destruct (CV_scores_raise n self) as [e ->]. reflexivity.
Qed.

(** One iteration of each search is one step of the pure scan. *)
Lemma BIC_candidate_run (n : Z) (st : float * option hmm) (self : ModelSelector) :
  SelectorBIC.candidate n st self
  = (Ok (scan_step (evaluated BIC self) (better BIC) st n), self).
Proof.
  unfold SelectorBIC.candidate, try_except, bind, scan_step, evaluated.
  simpl candidate_eval.
  pose proof (BIC_score_state n self) as Hs.
  destruct (SelectorBIC.candidate_score n self) as [[[model sc]|e] self'];
    simpl in Hs; subst self'; simpl; [| reflexivity].
  destruct (ltb sc (fst st)); reflexivity.
Qed.

Lemma DIC_candidate_run (n : Z) (st : float * option hmm) (self : ModelSelector) :
  SelectorDIC.candidate n st self
  = (Ok (scan_step (evaluated DIC self) (better DIC) st n), self).
Proof.
  unfold SelectorDIC.candidate, try_except, bind, scan_step, evaluated.
  simpl candidate_eval.
  pose proof (DIC_score_state n self) as Hs.
  destruct (SelectorDIC.candidate_score n self) as [[[model sc]|e] self'];
    simpl in Hs; subst self'; simpl; [| reflexivity].
  destruct (ltb (fst st) sc); reflexivity.
Qed.

Lemma CV_candidate_run (n : Z) (st : float * option hmm) (self : ModelSelector) :
  SelectorCV.candidate n st self = (Ok st, self).
Proof.
  unfold SelectorCV.candidate, try_except, bind.
  destruct (CV_scores_raise n self) as [e ->]. reflexivity.
Qed.

Lemma evaluated_CV (self : ModelSelector) (n : Z) : evaluated CV self n = None.
Proof.
  unfold evaluated, candidate_eval, bind.
  destruct (CV_scores_raise n self) as [e ->]. reflexivity.
Qed.

(** Each search opens with base_model(n_constant); if that call raises so
    does select, and otherwise select returns the model component of the
    scan of its candidates started from the model the call returned.
    [self] is left as it was. *)
Lemma select_run (c : criterion) (self : ModelSelector) :
  select (Search c) self
  = (match fixed self with
     | Ok best =>
         Ok (snd (scan (evaluated c self) (better c) (candidates self)
                    (initial_score c, best)))
     | Raise e => Raise e
     end, self).
Proof.
  unfold fixed.
  destruct c; simpl select;
    unfold SelectorBIC.select, SelectorDIC.select, SelectorCV.select;
    unfold bind at 1; unfold get at 1; rewrite bind_base_model;
    (destruct (fst (base_model (n_constant self) self)) as [best|e];
     [| reflexivity]);
    unfold bind, get; fold (candidates self).
  - rewrite (for_each_pure (scan_step (evaluated BIC self) (better BIC)) _ self _
               (fun x st _ => BIC_candidate_run x st self)).
    reflexivity.
  - rewrite (for_each_pure (scan_step (evaluated DIC self) (better DIC)) _ self _
               (fun x st _ => DIC_candidate_run x st self)).
    reflexivity.
  - rewrite (for_each_pure (scan_step (evaluated CV self) (better CV)) _ self _).
    + reflexivity.
    + intros x st _. rewrite CV_candidate_run. unfold scan_step.
      now rewrite evaluated_CV.
Qed.

Lemma select_Constant_run (self : ModelSelector) :
  select Constant self = (fixed self, self).
Proof.
  simpl. unfold SelectorConstant.select, fixed.
  unfold bind, get. apply base_model_outcome.
Qed.

Lemma fixed_Ok (self : ModelSelector) (best : option hmm) :
  fixed self = Ok best -> best = fallback self.
Proof. unfold fixed, fallback, fitted. now intros ->. Qed.

Lemma fixed_quiet (self : ModelSelector) :
  verbose self = false -> fixed self = Ok (fallback self).
Proof.
  intros Hq. unfold fixed. now rewrite (base_model_quiet _ _ Hq).
Qed.

End Runs.

(** Split on the call base_model(n) that heads the goal. *)
Ltac run_base_model n self :=
  let Hbm := fresh "Hbm" in
  let ebm := fresh "ebm" in
  let Hnone := fresh "Hnone" in
  destruct (base_model_cases n self) as [Hbm | (ebm & Hbm & Hnone)];
  unfold bind at 1; rewrite Hbm.

(** ** Facts on the comparisons of the three searches *)

Lemma better_trans (c : criterion) (x y z : float) :
  better c x y = true -> better c y z = true -> better c x z = true.
Proof.
  destruct c; simpl; intros Hxy Hyz; eapply ltb_trans; eassumption.
Qed.

Lemma better_not_at_least (c : criterion) (x y : float) :
  better c x y = true -> at_least c y x = false.
Proof. destruct c; simpl; apply ltb_not_leb. Qed.

Lemma better_excludes (c : criterion) (x y z : float) :
  better c x y = true -> better c z y = false -> at_least c z x = false.
Proof.
  destruct c; simpl; intros Hxy Hzy;
    [eapply below_excludes | eapply above_excludes | eapply above_excludes];
    eassumption.
Qed.

Lemma better_irrefl (c : criterion) (x : float) : better c x x = false.
Proof. destruct c; simpl; apply ltb_irrefl. Qed.

Lemma at_least_false_better (c : criterion) (x y : float) :
  at_least c x y = false -> better c x y = false.
Proof. destruct c; simpl; apply leb_false_ltb. Qed.

(** Two scores that both beat some score are comparable. *)
Lemma better_total (c : criterion) (x y i j : float) :
  better c x i = true -> better c y j = true ->
  at_least c x y = false -> better c y x = true.
Proof.
  assert (forall a b, rank a <> None -> rank b <> None ->
                      leb a b = false -> ltb b a = true) as Htot.
  { intros a b Ha Hb Hle.
    destruct (rank a) as [ra|] eqn:Era; [| congruence].
    destruct (rank b) as [rb|] eqn:Erb; [| congruence].
    apply ltb_rank. exists rb, ra. repeat split; try assumption.
    assert (~ (lex_lt ra rb \/ ra = rb)) as Hn.
    { intros H. assert (leb a b = true) as Ht
        by (apply leb_rank; exists ra, rb; repeat split; assumption).
      congruence. }
    destruct ra as [[? ?] ?], rb as [[? ?] ?]. unfold lex_lt in *.
    assert (~ (z = z2 /\ z0 = z3 /\ z1 = z4)) as Hne
      by (intros (-> & -> & ->); apply Hn; now right).
    lia. }
  destruct c; simpl; intros Hx Hy Hle; apply Htot; try assumption;
    by_rank; congruence.
Qed.

Lemma scan_ext {T} (eval eval' : Z -> option (T * float)) better l st :
  (forall n, In n l -> eval n = eval' n) ->
  scan eval better l st = scan eval' better l st.
Proof.
  revert st. induction l as [|x l IH]; intros st Hext; [reflexivity |].
  unfold scan in *. simpl. unfold scan_step at 2 4.
  rewrite (Hext x) by now left.
  apply IH. intros n Hn. apply Hext. now right.
Qed.

Lemma scan_app {T} (eval : Z -> option (T * float)) better l1 l2 st :
  scan eval better (l1 ++ l2) st = scan eval better l2 (scan eval better l1 st).
Proof. unfold scan. apply fold_left_app. Qed.

Lemma scan_all_None {T} (eval : Z -> option (T * float)) better l st :
  (forall n, In n l -> eval n = None) -> scan eval better l st = st.
Proof.
  revert st. induction l as [|x l IH]; intros st Hnone; [reflexivity |].
  unfold scan in *. simpl. unfold scan_step at 2.
  rewrite (Hnone x) by now left.
  apply IH. intros n Hn. apply Hnone. now right.
Qed.


Section Searches.
Context `{L : Libraries}.

(** A candidate that reaches the comparison carries the model that
    base_model fitted for it: a failed fit never gets that far. *)
Lemma evaluated_fitted (c : criterion) (self : ModelSelector) (n : Z) mo s :
  evaluated c self n = Some (mo, s) ->
  exists m, mo = Some m /\ fitted self n = Some m.
Proof.
  destruct c; unfold evaluated; simpl candidate_eval.
  - unfold SelectorBIC.candidate_score. run_base_model n self; [| discriminate].
    unfold bind.
    destruct (fitted self n) as [m|]; [| discriminate].
    unfold attr_n_features, ret, get, score, lift.
    destruct (hmm_score m (X self) (lengths self)); [| discriminate].
    destruct (int_mul_float (-2) a); [| discriminate].
    destruct (math_log (len (X self))); [| discriminate].
    destruct (int_mul_float _ _); [| discriminate].
    simpl. intros H. injection H as <- <-. now exists m.
  - unfold SelectorDIC.candidate_score. run_base_model n self; [| discriminate].
    unfold bind. unfold get at 1.
    pose proof (for_each_state (SelectorDIC.other_word (fitted self n)) (hwords self)
                  (other_word_state (fitted self n)) [] self) as Hs.
    destruct (for_each (hwords self) _ [] self) as [[scores|e] self'];
      simpl in Hs; subst self'; [| discriminate].
    unfold get.
    destruct (fitted self n) as [m|]; [| discriminate].
    unfold score, lift.
    destruct (hmm_score m (X self) (lengths self)); [| discriminate].
    simpl. intros H. injection H as <- <-. now exists m.
  - fold (candidate_eval CV n). fold (evaluated CV self n).
    rewrite evaluated_CV. discriminate.
Qed.

Lemma scored_evaluated (c : criterion) (self : ModelSelector) n m s :
  scored c self n m s <->
  In n (candidates self) /\ evaluated c self n = Some (Some m, s).
Proof.
  unfold scored, evaluated.
  destruct (fst (candidate_eval c n self)) as [r|e]; simpl;
    split; intros [Hin H]; split; congruence.
Qed.

Lemma candidates_In (self : ModelSelector) (n : Z) :
  In n (candidates self) <-> min_n_components self <= n <= max_n_components self.
Proof. unfold candidates. rewrite py_range_In. lia. Qed.

(** The outcome of a search: the exception of the opening
    base_model(n_constant) if it raises; else the Fixed-strategy model
    when no candidate beats the initial score, and otherwise the model of
    the first of the best candidates. *)
Lemma select_outcome (c : criterion) (self : ModelSelector) :
  (exists e, fixed self = Raise e /\ fst (select (Search c) self) = Raise e)
  \/
  (fixed self = Ok (fallback self) /\
   fst (select (Search c) self) = Ok (fallback self) /\
   forall n m s, scored c self n m s -> better c s (initial_score c) = false)
  \/
  (fixed self = Ok (fallback self) /\
   exists n m s,
      scored c self n m s /\
      fst (select (Search c) self) = Ok (Some m) /\
      better c s (initial_score c) = true /\
      first_best c self n s).
Proof.
  rewrite select_run. simpl fst.
  destruct (fixed self) as [best|e] eqn:Hfix; [| left; now exists e].
  right. apply fixed_Ok in Hfix. subst best.
  destruct (scan_spec (evaluated c self) (better c) (at_least c)
              (better_trans c) (better_not_at_least c) (better_excludes c)
              (candidates self) (initial_score c, fallback self))
    as [[Hsame Hnone] | (pre & n & post & mo & s & Hl & Hn & Hres & Hbet & Hpre & Hpost)].
  - left. rewrite Hsame. split; [reflexivity |]. split; [reflexivity |].
    intros n m s Hsc. apply scored_evaluated in Hsc. destruct Hsc as [Hin He].
    eapply Hnone; eassumption.
  - right. split; [reflexivity |].
    destruct (evaluated_fitted _ _ _ _ _ Hn) as (m & -> & Hfit).
    exists n, m, s. rewrite Hres.
    assert (In n (candidates self)) as Hin
      by (rewrite Hl; apply in_or_app; right; now left).
    split; [apply scored_evaluated; now split |].
    split; [reflexivity |]. split; [exact Hbet |].
    destruct (py_range_split _ _ _ _ _ Hl) as [Hlt Hgt].
    intros n' m' s' Hsc. apply scored_evaluated in Hsc.
    destruct Hsc as [Hin' He'].
    rewrite Hl in Hin'.
    apply in_app_or in Hin'. destruct Hin' as [Hin' | [<- | Hin']].
    + split; [| intros _]; [apply at_least_false_better |];
        eapply Hpre; eassumption.
    + rewrite Hn in He'. injection He' as <- <-.
      split; [apply better_irrefl | lia].
    + split; [eapply Hpost; eassumption |].
      intros Hlt'. apply Hgt in Hin'. lia.
Qed.

End Searches.

Section Claims.
Context `{L : Libraries}.

Lemma search_step_run (c : criterion) (n : Z) (st : float * option hmm) self :
  search_step c n st self
  = (Ok (scan_step (evaluated c self) (better c) st n), self).
Proof.
  destruct c; simpl.
  - apply BIC_candidate_run.
  - apply DIC_candidate_run.
  - rewrite CV_candidate_run. unfold scan_step. now rewrite evaluated_CV.
Qed.

Lemma scan_CV (self : ModelSelector) (l : list Z) (st : float * option hmm) :
  scan (evaluated CV self) (better CV) l st = st.
Proof.
  revert st. induction l as [|x l IH]; intros st; [reflexivity |].
  unfold scan in *. simpl. unfold scan_step at 2.
  rewrite evaluated_CV. apply IH.
Qed.

Lemma select_CV_run (self : ModelSelector) :
  SelectorCV.select self = (fixed self, self).
Proof.
  pose proof (select_run CV self) as Hrun. simpl select in Hrun. rewrite Hrun.
  destruct (fixed self); [| reflexivity]. now rewrite scan_CV.
Qed.

Lemma fixed_Raise (self : ModelSelector) (e : exn) :
  fixed self = Raise e ->
  verbose self = true /\
  py_print (failure_message (this_word self) (n_constant self)) = Raise e.
Proof. apply base_model_Raise. Qed.


(** C9 (amended): when the item has fewer sequences than the three folds
    asked for, SelectorCV.select does what SelectorConstant.select does.
    It raises only when verbose is set and the print in the handler of
    the opening base_model(n_constant) raises; otherwise, and always when
    verbose is off, it returns the Fixed-strategy model fitted with
    n_constant states and leaves self as it was. *)
Theorem CV_select_few_sequences (self : ModelSelector) :
  Z.of_nat (length (sequences self)) < SelectorCV.splits ->
  SelectorCV.select self = SelectorConstant.select self /\
  (forall e, fst (SelectorCV.select self) = Raise e ->
     verbose self = true /\
     py_print (failure_message (this_word self) (n_constant self)) = Raise e) /\
  ((forall e, fst (base_model (n_constant self) self) <> Raise e) ->
   SelectorCV.select self = (Ok (fallback self), self)) /\
  (verbose self = false -> SelectorCV.select self = (Ok (fallback self), self)).
Proof.
  intros _. rewrite select_CV_run.
  split; [symmetry; apply (select_Constant_run self) |].
  split; [intros e He; now apply fixed_Raise |].
  split.
  - intros Hno. destruct (fixed self) as [best|e] eqn:Hfix.
    + now rewrite (fixed_Ok _ _ Hfix).
    + now elim (Hno e).
  - intros Hq. now rewrite (fixed_quiet _ Hq).
Qed.

(** C8 (amended): no failure of a fit or of a score reaches the caller of
    select.  base_model never changes self and raises only what the print
    in its handler raises under verbose; with verbose off it turns every
    exception of the fit into None.  An iteration whose evaluation raises
    ends normally with the loop state unchanged.  select of every
    strategy raises only what the opening base_model(n_constant) raises,
    and ends with a value, possibly None, whenever that call returns. *)
Theorem no_failure_propagates (s : strategy) (self : ModelSelector) :
  (forall n,
      snd (base_model n self) = self /\
      (forall e, fst (base_model n self) = Raise e ->
         verbose self = true /\
         py_print (failure_message (this_word self) n) = Raise e) /\
      (verbose self = false ->
       exists r, base_model n self = (Ok r, self) /\
         (forall e, GaussianHMM_fit n (random_state self) (X self) (lengths self)
                    = Raise e -> r = None))) /\
  (forall c n st, exists st',
      search_step c n st self = (Ok st', self) /\
      (forall e, fst (candidate_eval c n self) = Raise e -> st' = st)) /\
  (forall e, fst (select s self) = Raise e ->
     fst (base_model (n_constant self) self) = Raise e /\
     verbose self = true /\
     py_print (failure_message (this_word self) (n_constant self)) = Raise e) /\
  ((forall e, fst (base_model (n_constant self) self) <> Raise e) ->
   exists r, select s self = (Ok r, self)) /\
  (verbose self = false -> exists r, select s self = (Ok r, self)).
Proof.
  assert (forall r, fixed self = Ok r -> exists r', select s self = (Ok r', self))
    as Hok.
  { intros r Hfix. destruct s as [|c].
    - exists r. now rewrite select_Constant_run, Hfix.
    - eexists. rewrite select_run, Hfix. reflexivity. }
  assert (forall e, fst (select s self) = Raise e -> fixed self = Raise e) as Hraise.
  { intros e. destruct s as [|c].
    - now rewrite select_Constant_run.
    - rewrite select_run. simpl. destruct (fixed self); [discriminate | auto]. }
  split; [| split; [| split; [| split]]].
  - intros n. split; [apply base_model_state |].
    split; [intros e; apply base_model_Raise |].
    intros Hq. exists (fitted self n). split; [now apply base_model_quiet |].
    intros e He. eapply fit_Raise_fitted. exact He.
  - intros c n st. eexists. split; [apply search_step_run |].
    intros e He. unfold scan_step, evaluated. now rewrite He.
  - intros e He. apply Hraise in He. split; [exact He | now apply fixed_Raise].
  - intros Hno. destruct (fixed self) as [r|e] eqn:Hfix.
    + eapply Hok. reflexivity.
    + now elim (Hno e).
  - intros Hq. eapply Hok. now apply fixed_quiet.
Qed.

(** C7: whenever select of any strategy returns a model, the number of
    hidden states of that model lies between min_n_components and
    max_n_components or equals n_constant. *)
Theorem selected_state_count (s : strategy) (self : ModelSelector) (m : hmm) :
  fst (select s self) = Ok (Some m) ->
  min_n_components self <= n_components m <= max_n_components self \/
  n_components m = n_constant self.
Proof.
  destruct s as [|c].
  - rewrite select_Constant_run. simpl. intros H. apply fixed_Ok in H.
    right. eapply fitted_n_components. symmetry. exact H.
  - destruct (select_outcome c self)
      as [(e & _ & Hsel) | [(_ & Hfb & _) | (_ & n & m' & sc & Hsc & Hsel & _)]];
      intros H; rewrite H in *.
    + discriminate.
    + injection Hfb as Hfb. right. eapply fitted_n_components.
      symmetry. exact Hfb.
    + injection Hsel as <-. left.
      apply scored_evaluated in Hsc. destruct Hsc as [Hin He].
      destruct (evaluated_fitted _ _ _ _ _ He) as (m2 & Hm2 & Hfit).
      injection Hm2 as <-.
      apply fitted_n_components in Hfit. rewrite Hfit.
      now apply candidates_In.
Qed.


End Claims.

Section Criteria.
Context `{L : Libraries}.

Lemma scored_functional (c : criterion) (self : ModelSelector) n m s m' s' :
  scored c self n m s -> scored c self n m' s' -> m = m' /\ s = s'.
Proof.
  intros [_ H] [_ H']. rewrite H in H'. injection H' as <- <-. now split.
Qed.

(** A scored candidate that beats the initial score and is the first of
    the best is the one whose model select returns, once the opening
    base_model(n_constant) has returned. *)
Lemma first_best_selected (c : criterion) (self : ModelSelector) n m s best :
  fixed self = Ok best ->
  scored c self n m s -> first_best c self n s ->
  better c s (initial_score c) = true ->
  fst (select (Search c) self) = Ok (Some m).
Proof.
  intros Hstart Hsc Hfirst Hbeats.
  destruct (select_outcome c self)
    as [(e & Hfix & _) | [(_ & _ & Hnone)
                         | (_ & n0 & m0 & s0 & Hsc0 & Hsel & Hbeats0 & Hfirst0)]].
  - congruence.
  - rewrite (Hnone _ _ _ Hsc) in Hbeats. discriminate.
  - rewrite Hsel.
    destruct (Hfirst _ _ _ Hsc0) as [Hnb Hearlier].
    destruct (Hfirst0 _ _ _ Hsc) as [Hnb0 Hearlier0].
    destruct (Z.lt_trichotomy n n0) as [Hlt | [Heq | Hgt]].
    + specialize (Hearlier0 Hlt).
      pose proof (better_total c _ _ _ _ Hbeats Hbeats0 Hearlier0). congruence.
    + subst n0. destruct (scored_functional _ _ _ _ _ _ _ Hsc Hsc0) as [<- _].
      reflexivity.
    + specialize (Hearlier Hgt).
      pose proof (better_total c _ _ _ _ Hbeats0 Hbeats Hearlier). congruence.
Qed.

Lemma float_of_int_Ok (z : Z) (f : float) : float_of_int z = Ok f -> f = of_Z z.
Proof.
  unfold float_of_int. destruct (of_Z z); intros H; try discriminate;
    now injection H as <-.
Qed.

Lemma int_mul_float_Ok (z : Z) (x r : float) :
  int_mul_float z x = Ok r -> r = mul (of_Z z) x.
Proof.
  unfold int_mul_float. destruct (float_of_int z) as [f|e] eqn:Hf; [| discriminate].
  intros H. injection H as <-. now rewrite (float_of_int_Ok _ _ Hf).
Qed.

Lemma int_mul_float_run (z : Z) (x f : float) :
  float_of_int z = Ok f -> int_mul_float z x = Ok (mul (of_Z z) x).
Proof.
  intros Hf. unfold int_mul_float. rewrite Hf.
  now rewrite (float_of_int_Ok _ _ Hf).
Qed.

Lemma float_of_minus_two : float_of_int (-2) = Ok (of_Z (-2)).
Proof. reflexivity. Qed.

(** C3: when base_model returns the fitted model m for n, m scores the
    item's own (X, lengths) with log-likelihood logL, and the logarithm
    and the conversion of the parameter count succeed, SelectorBIC computes
    -2 * logL + p * ln(N) with N = len(X) and p = n^2 + 2*n*d - 1 for
    d = m.n_features; and every score SelectorBIC computes arises so. *)
Theorem BIC_score_formula (self : ModelSelector) (n : Z) :
  (forall m logL pf,
      fitted self n = Some m ->
      hmm_score m (X self) (lengths self) = Ok logL ->
      0 < len (X self) ->
      float_of_int (free_parameters n (n_features m)) = Ok pf ->
      fst (SelectorBIC.candidate_score n self)
      = Ok (Some m, BIC_value logL (free_parameters n (n_features m)) (len (X self)))) /\
  (forall model sc,
      fst (SelectorBIC.candidate_score n self) = Ok (model, sc) ->
      exists m logL,
        model = Some m /\ fitted self n = Some m /\
        hmm_score m (X self) (lengths self) = Ok logL /\
        0 < len (X self) /\
        sc = BIC_value logL (free_parameters n (n_features m)) (len (X self))).
Proof.
  split; unfold SelectorBIC.candidate_score.
  - intros m logL pf Hfit Hscore Hpos Hpf.
    run_base_model n self; [| congruence]. unfold bind. rewrite Hfit.
    unfold attr_n_features, ret, get, score, lift. rewrite Hscore.
    rewrite (int_mul_float_run _ _ _ float_of_minus_two).
    unfold math_log at 1. destruct (Z.leb_spec (len (X self)) 0) as [Hle | Hle]; [lia |].
    fold (free_parameters n (n_features m)).
    rewrite (int_mul_float_run _ _ _ Hpf). reflexivity.
  - intros model sc. run_base_model n self; [| discriminate]. unfold bind.
    destruct (fitted self n) as [m|]; [| discriminate].
    unfold attr_n_features, ret, get, score, lift.
    destruct (hmm_score m (X self) (lengths self)) as [logL|] eqn:Hscore;
      [| discriminate].
    destruct (int_mul_float (-2) logL) as [a|] eqn:Ha; [| discriminate].
    unfold math_log at 1. destruct (Z.leb_spec (len (X self)) 0) as [Hle | Hle]; [discriminate |].
    fold (free_parameters n (n_features m)).
    destruct (int_mul_float (free_parameters n (n_features m)) (ln (len (X self))))
      as [b|] eqn:Hb; [| discriminate].
    simpl. intros H. injection H as <- <-.
    exists m, logL.
    split; [reflexivity |]. split; [reflexivity |]. split; [exact Hscore |].
    split; [lia |].
    apply int_mul_float_Ok in Ha, Hb. subst a b. reflexivity.
Qed.

(** The loop over self.hwords.items() collects the scores of the other
    items, in order, when every such score succeeds. *)
Lemma others_loop_ok (m : hmm) (self : ModelSelector) items :
  forall acc ss,
    Forall2 (fun item s => hmm_score m (fst (snd item)) (snd (snd item)) = Ok s)
      (filter (fun item => negb (String.eqb (fst item) (this_word self))) items) ss ->
    for_each items (SelectorDIC.other_word (Some m)) acc self = (Ok (acc ++ ss), self).
Proof.
  induction items as [|[word [test_x test_lengths]] items IH]; intros acc ss Hss;
    simpl in Hss |- *.
  - inversion Hss. now rewrite app_nil_r.
  - unfold bind at 1. unfold SelectorDIC.other_word at 1. unfold bind, get.
    destruct (negb (word =? this_word self)%string).
    + inversion Hss as [|item s rest ss' Hs Hrest]; subst. simpl in Hs.
      unfold score, lift. rewrite Hs. unfold ret.
      rewrite (IH _ _ Hrest). now rewrite <- app_assoc.
    + unfold ret. now apply IH.
Qed.

(** It raises as soon as one of those scores does. *)
Lemma others_loop_raise (m : hmm) (self : ModelSelector) items :
  forall acc item e,
    In item (filter (fun item => negb (String.eqb (fst item) (this_word self))) items) ->
    hmm_score m (fst (snd item)) (snd (snd item)) = Raise e ->
    exists e', for_each items (SelectorDIC.other_word (Some m)) acc self = (Raise e', self).
Proof.
  induction items as [|[word [test_x test_lengths]] items IH]; intros acc item e Hin He;
    simpl in Hin |- *.
  - destruct Hin.
  - unfold bind at 1. unfold SelectorDIC.other_word at 1. unfold bind, get.
    destruct (negb (word =? this_word self)%string).
    + unfold score, lift.
      destruct (hmm_score m test_x test_lengths) as [s|e0] eqn:Hs.
      * unfold ret. destruct Hin as [<- | Hin]; [simpl in He; congruence |].
        eapply IH; eassumption.
      * now exists e0.
    + unfold ret. eapply IH; eassumption.
Qed.

End Criteria.

Section Selection.
Context `{L : Libraries}.

Lemma search_step_skips (c : criterion) (self : ModelSelector) n st e :
  fst (candidate_eval c n self) = Raise e ->
  search_step c n st self = (Ok st, self).
Proof.
  intros He. rewrite search_step_run. unfold scan_step, evaluated.
  now rewrite He.
Qed.

Lemma select_outcome_fitted (c : criterion) (self : ModelSelector) :
  (exists e, fixed self = Raise e /\ fst (select (Search c) self) = Raise e)
  \/
  (fst (select (Search c) self) = Ok (fallback self) /\
   forall n m s, scored c self n m s -> better c s (initial_score c) = false)
  \/
  (exists n m s,
      scored c self n m s /\ fitted self n = Some m /\
      fst (select (Search c) self) = Ok (Some m) /\
      better c s (initial_score c) = true /\ first_best c self n s).
Proof.
  destruct (select_outcome c self)
    as [Hraise | [(_ & Hfb) | (_ & n & m & s & Hsc & Hsel & Hb & Hfirst)]];
    [now left | right; now left | right; right].
  exists n, m, s.
  split; [exact Hsc |]. split; [| split; [exact Hsel | split; [exact Hb | exact Hfirst]]].
  apply scored_evaluated in Hsc. destruct Hsc as [_ He].
  destruct (evaluated_fitted _ _ _ _ _ He) as (m2 & Hm2 & Hfit).
  now injection Hm2 as <-.
Qed.

(** The opening call returns when verbose is off. *)
Lemma starts (self : ModelSelector) :
  verbose self = false \/ (exists best, fixed self = Ok best) ->
  exists best, fixed self = Ok best.
Proof.
  intros [Hq | H]; [| exact H]. eexists. now apply fixed_quiet.
Qed.

(** C4 (amended): SelectorBIC.select opens with base_model(n_constant)
    and raises what that call raises; when it returns, select is the
    left-to-right scan of range(min_n_components, max_n_components + 1)
    started from the model returned.  When verbose is off or the opening
    call returns, a scored candidate whose BIC is below +inf, is not above
    any scored candidate and is not equalled by an earlier one has its
    model returned.  A candidate whose fit or score raises leaves the
    running best untouched.  The outcome is the exception of the opening
    call, or the model of such a first-lowest candidate, whose fit and
    score succeeded, or, when no scored candidate is below +inf, the
    Fixed-strategy model. *)
Theorem BIC_select_minimal (self : ModelSelector) :
  SelectorBIC.select self
  = (match fst (base_model (n_constant self) self) with
     | Ok best =>
         Ok (snd (scan (evaluated BIC self) (fun s lowest => ltb s lowest)
                    (py_range (min_n_components self) (max_n_components self + 1))
                    (inf, best)))
     | Raise e => Raise e
     end, self) /\
  (forall n m s,
      verbose self = false \/
      (exists best, fst (base_model (n_constant self) self) = Ok best) ->
      scored BIC self n m s -> first_best BIC self n s -> ltb s inf = true ->
      fst (SelectorBIC.select self) = Ok (Some m)) /\
  (forall n st e,
      fst (SelectorBIC.candidate_score n self) = Raise e ->
      SelectorBIC.candidate n st self = (Ok st, self)) /\
  ((exists e, fst (base_model (n_constant self) self) = Raise e /\
              fst (SelectorBIC.select self) = Raise e) \/
   (fst (SelectorBIC.select self) = Ok (fitted self (n_constant self)) /\
    forall n m s, scored BIC self n m s -> ltb s inf = false) \/
   exists n m s,
     scored BIC self n m s /\ fitted self n = Some m /\
     fst (SelectorBIC.select self) = Ok (Some m) /\
     ltb s inf = true /\ first_best BIC self n s).
Proof.
  split; [apply (select_run BIC self) |].
  split.
  { intros n m s Hstart. destruct (starts self Hstart) as [best Hbest].
    apply (first_best_selected BIC self n m s best Hbest). }
  split; [intros n st e; apply (search_step_skips BIC self) |].
  apply (select_outcome_fitted BIC self).
Qed.

(** C5 (amended): when base_model returns the model m for i and m scores
    the item's own data and every other item of the collection, the score
    of candidate i is own - np.mean(others), the others taken in dict
    order with the same model.  A candidate for which base_model returns
    no model or for which one of those scores raises leaves the running
    best untouched.  When verbose is off or the opening
    base_model(n_constant) returns, a scored candidate whose DIC is above
    -inf, is not below any scored candidate and is not equalled by an
    earlier one has its model returned.  The outcome is the exception of
    the opening call, or the model of such a first-highest candidate or,
    when no scored candidate is above -inf, the Fixed-strategy model. *)
Theorem DIC_select_maximal (self : ModelSelector) :
  (forall i m own others,
      fitted self i = Some m ->
      scores_of m (other_items self) others ->
      hmm_score m (X self) (lengths self) = Ok own ->
      fst (SelectorDIC.candidate_score i self)
      = Ok (Some m, sub own (np_mean others))) /\
  (forall i st,
      fitted self i = None \/
      (exists m item e,
          fitted self i = Some m /\ In item (other_items self) /\
          hmm_score m (fst (snd item)) (snd (snd item)) = Raise e) ->
      SelectorDIC.candidate i st self = (Ok st, self)) /\
  (forall n m s,
      verbose self = false \/
      (exists best, fst (base_model (n_constant self) self) = Ok best) ->
      scored DIC self n m s -> first_best DIC self n s -> ltb neg_inf s = true ->
      fst (SelectorDIC.select self) = Ok (Some m)) /\
  ((exists e, fst (base_model (n_constant self) self) = Raise e /\
              fst (SelectorDIC.select self) = Raise e) \/
   (fst (SelectorDIC.select self) = Ok (fitted self (n_constant self)) /\
    forall n m s, scored DIC self n m s -> ltb neg_inf s = false) \/
   exists n m s,
     scored DIC self n m s /\ fitted self n = Some m /\
     fst (SelectorDIC.select self) = Ok (Some m) /\
     ltb neg_inf s = true /\ first_best DIC self n s).
Proof.
  split; [| split; [| split]].
  - intros i m own others Hfit Hothers Hown.
    unfold SelectorDIC.candidate_score.
    run_base_model i self; [| congruence]. unfold bind. rewrite Hfit.
    unfold get at 1.
    rewrite (others_loop_ok m self (hwords self) [] others Hothers).
    unfold get, score, lift. rewrite Hown. reflexivity.
  - intros i st Hfail.
    assert (exists e, fst (SelectorDIC.candidate_score i self) = Raise e) as [e He].
    { unfold SelectorDIC.candidate_score.
      run_base_model i self; [| now exists ebm]. unfold bind.
      unfold get at 1.
      destruct Hfail as [Hnone | (m & item & e & Hfit & Hin & Hr)].
      - rewrite Hnone.
        pose proof (for_each_state (SelectorDIC.other_word None) (hwords self)
                      (other_word_state None) [] self) as Hs.
        destruct (for_each (hwords self) _ [] self) as [[scores|e] self'];
          simpl in Hs; subst self'; [| now exists e].
        now exists AttributeError.
      - rewrite Hfit.
        destruct (others_loop_raise m self (hwords self) [] item e Hin Hr)
          as [e' He'].
        rewrite He'. now exists e'. }
    apply (search_step_skips DIC self i st e He).
  - intros n m s Hstart. destruct (starts self Hstart) as [best Hbest].
    apply (first_best_selected DIC self n m s best Hbest).
  - apply (select_outcome_fitted DIC self).
Qed.


End Selection.

(** ** The statements at concrete selectors *)

Lemma demo_self_init :
  ModelSelector_init (words (demo_self 2 10)) (hwords (demo_self 2 10))
    "JOHN" 3 2 10 14 false = Ok (demo_self 2 10).
Proof. reflexivity. Qed.

(** C1: on JOHN, an item of three sequences, every candidate iteration of
    SelectorCV raises TypeError where the KFold object is applied: no fold
    is formed, no model is fitted on training segments, no held-out score
    is recorded for any candidate, and the model returned is the one with
    n_constant = 3 states. *)
Theorem CV_records_no_fold_score :
  map (fun n => fst (@SelectorCV.candidate_scores demo_lib n (demo_self 2 4)))
    [2; 3; 4]
  = [Raise TypeError; Raise TypeError; Raise TypeError] /\
  map (@evaluated demo_lib CV (demo_self 2 4)) [2; 3; 4] = [None; None; None] /\
  fst (@SelectorCV.select demo_lib (demo_self 2 4)) = Ok (Some (demo_model 3)).
Proof. repeat split; reflexivity. Qed.


Lemma BIC_score_formula_witness :
  @fitted demo_lib (demo_self 2 10) 2 = Some (demo_model 2) /\
  fst (@SelectorBIC.candidate_score demo_lib 2 (demo_self 2 10))
  = Ok (Some (demo_model 2), @BIC_value demo_lib (of_Z (-6)) 11 5).
Proof.
  split; [reflexivity |].
  apply (proj1 (@BIC_score_formula demo_lib (demo_self 2 10) 2)
           (demo_model 2) (of_Z (-6)) (of_Z 11));
    reflexivity.
Defined.

Lemma CV_select_few_sequences_witness :
  Z.of_nat (length (sequences lone_self)) < SelectorCV.splits /\
  @SelectorCV.select demo_lib lone_self = (Ok (Some (demo_model 3)), lone_self).
Proof.
  split; [reflexivity |].
  apply (proj2 (proj2 (proj2
           (@CV_select_few_sequences demo_lib lone_self eq_refl)))).
  reflexivity.
Defined.

(** C9, the claim as stated fails: with verbose set and stdout closed, on
    an item of one sequence the print in the handler of the opening
    base_model(n_constant) raises ValueError, and so does SelectorCV.select. *)
Lemma CV_select_few_sequences_raises :
  ~ (Z.of_nat (length (sequences loud_self)) < SelectorCV.splits ->
     exists r, fst (@SelectorCV.select closed_stdout_lib loud_self) = Ok r).
Proof.
  intros Hclaim. destruct (Hclaim eq_refl) as [r Hr].
  vm_compute in Hr. discriminate Hr.
Qed.

Lemma no_failure_propagates_witness :
  verbose (demo_self 6 7) = false /\
  exists r, @select demo_lib (Search DIC) (demo_self 6 7) = (Ok r, demo_self 6 7).
Proof.
  split; [reflexivity |].
  apply (proj2 (proj2 (proj2 (proj2
           (@no_failure_propagates demo_lib (Search DIC) (demo_self 6 7)))))).
  reflexivity.
Defined.

(** C8, the claim as stated fails: with verbose set and stdout closed the
    print after the fit raises inside the try of base_model, the print in
    its handler raises outside any try, and select of every strategy
    raises ValueError instead of returning a model or None. *)
Lemma select_can_raise :
  ~ (forall s, exists r, fst (@select closed_stdout_lib s loud_self) = Ok r).
Proof.
  intros Hclaim. destruct (Hclaim (Search BIC)) as [r Hr].
  vm_compute in Hr. discriminate Hr.
Qed.

Lemma selected_state_count_witness :
  fst (@select demo_lib (Search BIC) (demo_self 2 10)) = Ok (Some (demo_model 2)) /\
  (2 <= 2 <= 10 \/ 2 = 3).
Proof.
  split; [reflexivity |].
  apply (@selected_state_count demo_lib (Search BIC) (demo_self 2 10) (demo_model 2)).
  reflexivity.
Defined.



Ltac each_candidate Hin He :=
  vm_compute in Hin;
  repeat (destruct Hin as [<- | Hin];
          [vm_compute in He;
           first [ discriminate He
                 | injection He as _ <-;
                   split; [reflexivity | intros Hlt; try lia; reflexivity] ]
          |]);
  destruct Hin.

(** C4, the claim as stated fails: with a log-likelihood of -inf the only
    candidate, 2, is fitted and scored, its BIC is +inf, it is the first of
    the lowest, and select returns the model with n_constant = 3 states. *)
Lemma BIC_first_lowest_not_returned :
  ~ @returns_first_best underflow_lib BIC (demo_self 2 2).
Proof.
  intros Hclaim.
  assert (@scored underflow_lib BIC (demo_self 2 2) 2 (demo_model 2) inf) as Hsc
    by (split; [now left | reflexivity]).
  assert (@first_best underflow_lib BIC (demo_self 2 2) 2 inf) as Hfirst.
  { intros n' m' s' [Hin He]. each_candidate Hin He. }
  specialize (Hclaim 2 (demo_model 2) inf Hsc Hfirst).
  vm_compute in Hclaim. discriminate Hclaim.
Qed.

Lemma BIC_select_minimal_witness :
  @scored demo_lib BIC (demo_self 2 10) 2 (demo_model 2) (of_Z 34) /\
  @first_best demo_lib BIC (demo_self 2 10) 2 (of_Z 34) /\
  fst (@SelectorBIC.select demo_lib (demo_self 2 10)) = Ok (Some (demo_model 2)).
Proof.
  assert (@scored demo_lib BIC (demo_self 2 10) 2 (demo_model 2) (of_Z 34)) as Hsc
    by (split; [now left | reflexivity]).
  assert (@first_best demo_lib BIC (demo_self 2 10) 2 (of_Z 34)) as Hfirst.
  { intros n' m' s' [Hin He]. each_candidate Hin He. }
  split; [exact Hsc |]. split; [exact Hfirst |].
  apply (proj1 (proj2 (@BIC_select_minimal demo_lib (demo_self 2 10)))
           2 (demo_model 2) (of_Z 34) (or_introl eq_refl) Hsc Hfirst).
  reflexivity.
Defined.

(** C5, the claim as stated fails: with an own log-likelihood of -inf the
    only candidate, 2, is fitted and scored against BOOK, its DIC is -inf,
    it is the first of the highest, and select returns the model with
    n_constant = 3 states. *)
Lemma DIC_first_highest_not_returned :
  ~ @returns_first_best underflow_lib DIC (demo_self 2 2).
Proof.
  intros Hclaim.
  assert (@scored underflow_lib DIC (demo_self 2 2) 2 (demo_model 2) neg_inf) as Hsc
    by (split; [now left | reflexivity]).
  assert (@first_best underflow_lib DIC (demo_self 2 2) 2 neg_inf) as Hfirst.
  { intros n' m' s' [Hin He]. each_candidate Hin He. }
  specialize (Hclaim 2 (demo_model 2) neg_inf Hsc Hfirst).
  vm_compute in Hclaim. discriminate Hclaim.
Qed.

Lemma DIC_select_maximal_witness :
  fst (@SelectorDIC.candidate_score demo_lib 3 (demo_self 2 10))
  = Ok (Some (demo_model 3), sub (of_Z (-1)) (@np_mean demo_lib [of_Z (-1)])) /\
  @SelectorDIC.candidate demo_lib 6 (neg_inf, None) (demo_self 2 10)
  = (Ok (neg_inf, None), demo_self 2 10) /\
  @first_best demo_lib DIC (demo_self 2 10) 3 zero /\
  fst (@SelectorDIC.select demo_lib (demo_self 2 10)) = Ok (Some (demo_model 3)).
Proof.
  pose proof (@DIC_select_maximal demo_lib (demo_self 2 10))
    as (Hformula & Hskip & Hbest & _).
  assert (@scored demo_lib DIC (demo_self 2 10) 3 (demo_model 3) zero) as Hsc
    by (split; [right; now left | reflexivity]).
  assert (@first_best demo_lib DIC (demo_self 2 10) 3 zero) as Hfirst.
  { intros n' m' s' [Hin He]. each_candidate Hin He. }
  split.
  { apply (Hformula 3 (demo_model 3) (of_Z (-1)) [of_Z (-1)]).
    - reflexivity.
    - repeat constructor.
    - reflexivity. }
  split; [apply Hskip; left; reflexivity |].
  split; [exact Hfirst |].
  apply (Hbest 3 (demo_model 3) zero (or_introl eq_refl) Hsc Hfirst). reflexivity.
Defined.

(** * Further properties of the selectors *)

(** ** ModelSelector.__init__ *)

Lemma dict_get_Raise {V} (d : list (string * V)) (k : string) (e : exn) :
  dict_get d k = Raise e -> e = KeyError /\ ~ In k (keys d).
Proof.
  induction d as [|[k' v] d IH]; simpl.
  - intros H. injection H as <-. split; [reflexivity | intros []].
  - destruct (String.eqb_spec k' k) as [-> | Hne]; [discriminate |].
    intros H. destruct (IH H) as [He Hnot]. split; [exact He |].
    intros [Heq | Hin]; [now apply Hne | now apply Hnot].
Qed.

Lemma dict_get_Ok {V} (d : list (string * V)) (k : string) (v : V) :
  dict_get d k = Ok v -> In (k, v) d.
Proof.
  induction d as [|[k' v'] d IH]; simpl; [discriminate |].
  destruct (String.eqb_spec k' k) as [-> | Hne].
  - intros H. injection H as <-. now left.
  - intros H. right. now apply IH.
Qed.

Lemma dict_get_In {V} (d : list (string * V)) (k : string) :
  In k (keys d) -> exists v, dict_get d k = Ok v.
Proof.
  induction d as [|[k' v'] d IH]; simpl; [intros [] |].
  destruct (String.eqb_spec k' k) as [-> | Hne].
  - intros _. now exists v'.
  - intros [Heq | Hin]; [now elim Hne | now apply IH].
Qed.

(** X1: the constructor fails exactly when this_word is missing from one
    of the two dicts, and then with KeyError; when it succeeds the
    selector holds the sequences and the (X, lengths) pair stored under
    this_word, the two dicts themselves and the configuration given. *)
Theorem ModelSelector_init_spec
  (all_word_sequences : list (string * list sequence))
  (all_word_Xlengths : list (string * (array * list Z)))
  (word : string) (n_const min_n max_n seed : Z) (verb : bool) :
  let r := ModelSelector_init all_word_sequences all_word_Xlengths word
             n_const min_n max_n seed verb in
  (forall e, r = Raise e ->
     e = KeyError /\
     (~ In word (keys all_word_sequences) \/ ~ In word (keys all_word_Xlengths))) /\
  (In word (keys all_word_sequences) -> In word (keys all_word_Xlengths) ->
   exists self, r = Ok self) /\
  (forall self, r = Ok self ->
     dict_get all_word_sequences word = Ok (sequences self) /\
     dict_get all_word_Xlengths word = Ok (X self, lengths self) /\
     words self = all_word_sequences /\ hwords self = all_word_Xlengths /\
     this_word self = word /\ n_constant self = n_const /\
     min_n_components self = min_n /\ max_n_components self = max_n /\
     random_state self = seed /\ verbose self = verb).
Proof.
  unfold ModelSelector_init. split; [| split].
  - intros e.
    destruct (dict_get all_word_sequences word) as [seqs|e1] eqn:H1.
    + destruct (dict_get all_word_Xlengths word) as [[x l]|e2] eqn:H2;
        [discriminate |].
      intros H. injection H as <-.
      destruct (dict_get_Raise _ _ _ H2) as [He Hnot]. split; [exact He | now right].
    + intros H. injection H as <-.
      destruct (dict_get_Raise _ _ _ H1) as [He Hnot]. split; [exact He | now left].
  - intros Hin1 Hin2.
    destruct (dict_get_In _ _ Hin1) as [seqs ->].
    destruct (dict_get_In _ _ Hin2) as [[x l] ->].
    eexists. reflexivity.
  - intros self.
    destruct (dict_get all_word_sequences word) as [seqs|e1]; [| discriminate].
    destruct (dict_get all_word_Xlengths word) as [[x l]|e2]; [| discriminate].
    intros H. injection H as <-. simpl. repeat split; reflexivity.
Qed.

Lemma ModelSelector_init_spec_witness :
  ModelSelector_init (words lone_self) (hwords (demo_self 2 10)) "BOOK" 3 2 10 14 false
  = Raise KeyError /\
  (KeyError = KeyError /\
   (~ In "BOOK"%string (keys (words lone_self)) \/
    ~ In "BOOK"%string (keys (hwords (demo_self 2 10))))).
Proof.
  split; [reflexivity |].
  apply (proj1 (ModelSelector_init_spec (words lone_self) (hwords (demo_self 2 10))
                  "BOOK" 3 2 10 14 false) KeyError).
  reflexivity.
Defined.

Section Extras.
Context `{L : Libraries}.

Lemma fitted_seed (self : ModelSelector) (n : Z) (m : hmm) :
  fitted self n = Some m -> hmm_random_state m = random_state self.
Proof.
  intros H. apply fitted_fit in H. unfold GaussianHMM_fit in H.
  destruct (hmm_fit n (random_state self) (X self) (lengths self)) as [[d p]|e];
    [| discriminate].
  injection H as <-. reflexivity.
Qed.

Lemma select_any_run (s : strategy) (self : ModelSelector) :
  select s self = (fst (select s self), self).
Proof.
  destruct s as [|c]; [now rewrite select_Constant_run | now rewrite select_run].
Qed.

Lemma select_quiet (s : strategy) (self : ModelSelector) :
  verbose self = false -> exists r, fst (select s self) = Ok r.
Proof.
  intros Hq. destruct s as [|c].
  - rewrite select_Constant_run, (fixed_quiet _ Hq). now eexists.
  - rewrite select_run, (fixed_quiet _ Hq). now eexists.
Qed.

(** X2: select of every strategy leaves the selector as it found it, so
    a second call on the same object does what the first did: it returns
    the same model, or raises the same exception when the first raised
    (which it cannot with verbose off). *)
Theorem select_twice (s : strategy) (self : ModelSelector) :
  snd (select s self) = self /\
  (first <- select s ;; second <- select s ;; ret (first, second)) self
  = (match fst (select s self) with
     | Ok r => Ok (r, r)
     | Raise e => Raise e
     end, self) /\
  (verbose self = false ->
   exists r,
     (first <- select s ;; second <- select s ;; ret (first, second)) self
     = (Ok (r, r), self)).
Proof.
  assert (forall o, fst (select s self) = o ->
            (first <- select s ;; second <- select s ;; ret (first, second)) self
            = (match o with
               | Ok r => Ok (r, r)
               | Raise e => Raise e
               end, self)) as Htwice.
  { intros o Ho. pose proof (select_any_run s self) as Hrun. rewrite Ho in Hrun.
    unfold bind. rewrite Hrun. destruct o as [r|e]; [| reflexivity].
    rewrite Hrun. reflexivity. }
  split; [rewrite (select_any_run s self); reflexivity |].
  split; [now apply Htwice |].
  intros Hq. destruct (select_quiet s self Hq) as [r Hr]. exists r.
  now rewrite (Htwice _ Hr).
Qed.

(** X3: a model returned by select of any strategy is the one base_model
    fits on the item's own X and lengths for that model's number of
    states, and it carries the selector's random_state. *)
Theorem selected_is_own_fit (s : strategy) (self : ModelSelector) (m : hmm) :
  fst (select s self) = Ok (Some m) ->
  fitted self (n_components m) = Some m /\
  GaussianHMM_fit (n_components m) (random_state self) (X self) (lengths self)
  = Ok m /\
  hmm_random_state m = random_state self.
Proof.
  assert (forall k, fitted self k = Some m ->
            fitted self (n_components m) = Some m /\
            GaussianHMM_fit (n_components m) (random_state self) (X self)
              (lengths self) = Ok m /\
            hmm_random_state m = random_state self) as Hown.
  { intros k Hk. rewrite (fitted_n_components _ _ _ Hk).
    split; [exact Hk |].
    split; [now apply fitted_fit | eapply fitted_seed; exact Hk]. }
  destruct s as [|c].
  - rewrite select_Constant_run. simpl. intros H. apply fixed_Ok in H.
    eapply Hown. symmetry. exact H.
  - destruct (select_outcome_fitted c self)
      as [(e & _ & Hsel) | [[Hfb _] | (n & m' & sc & _ & Hfit & Hsel & _)]];
      intros H; rewrite H in *.
    + discriminate.
    + injection Hfb as Hfb. eapply Hown. symmetry. exact Hfb.
    + injection Hsel as <-. eapply Hown. exact Hfit.
Qed.

(** X4: a searching strategy returns None exactly when the opening
    base_model(n_constant) returns None and no scored candidate beats the
    initial score (+inf for BIC, -inf for DIC and CV); with verbose off
    the opening call returns None exactly when the fit with n_constant
    states fails. *)
Theorem select_None_iff (c : criterion) (self : ModelSelector) :
  (fst (select (Search c) self) = Ok None <->
   fst (base_model (n_constant self) self) = Ok None /\
   (forall n m s, scored c self n m s -> better c s (initial_score c) = false)) /\
  (verbose self = false ->
   (fst (select (Search c) self) = Ok None <->
    fitted self (n_constant self) = None /\
    (forall n m s, scored c self n m s -> better c s (initial_score c) = false))).
Proof.
  assert (fst (select (Search c) self) = Ok None <->
          fixed self = Ok None /\
          (forall n m s, scored c self n m s -> better c s (initial_score c) = false))
    as Hiff.
  { destruct (select_outcome c self)
      as [(e & Hfix & Hsel) | [(Hfix & Hfb & Hnone)
                              | (Hfix & n & m & s & Hsc & Hsel & Hb & _)]].
    - rewrite Hsel, Hfix. split; [discriminate | intros [H _]; discriminate].
    - rewrite Hfb, Hfix. split.
      + intros H. split; [exact H | exact Hnone].
      + now intros [H _].
    - rewrite Hsel. split; [discriminate |].
      intros [_ Hall]. rewrite (Hall _ _ _ Hsc) in Hb. discriminate. }
  split; [exact Hiff |].
  intros Hq. rewrite Hiff, (fixed_quiet _ Hq). unfold fallback.
  split; intros [H Hall]; (split; [| exact Hall]).
  - now injection H.
  - now rewrite H.
Qed.

(** X5: when max_n_components is below min_n_components the candidate
    range is empty and every searching strategy does what
    SelectorConstant.select does: with verbose off it returns the model
    fitted with n_constant states. *)
Theorem select_empty_range (c : criterion) (self : ModelSelector) :
  max_n_components self < min_n_components self ->
  select (Search c) self = select Constant self /\
  (verbose self = false ->
   select (Search c) self = (Ok (fitted self (n_constant self)), self)).
Proof.
  intros Hlt.
  assert (select (Search c) self = (fixed self, self)) as Hsel.
  { rewrite select_run.
    assert (candidates self = []) as ->.
    { unfold candidates, py_range.
      replace (Z.to_nat (max_n_components self + 1 - min_n_components self))
        with 0%nat by lia.
      reflexivity. }
    destruct (fixed self); reflexivity. }
  split; [now rewrite Hsel, select_Constant_run |].
  intros Hq. now rewrite Hsel, (fixed_quiet _ Hq).
Qed.

End Extras.

Lemma select_None_iff_witness :
  fst (@select demo_lib (Search BIC) empty_self) = Ok None /\
  @fitted demo_lib empty_self (n_constant empty_self) = None.
Proof.
  split; [reflexivity |].
  apply (proj1 (proj2 (@select_None_iff demo_lib BIC empty_self) eq_refl)).
  reflexivity.
Defined.

Lemma select_twice_witness :
  verbose (demo_self 2 10) = false /\
  exists r,
    (first <- @select demo_lib (Search BIC) ;;
     second <- @select demo_lib (Search BIC) ;; ret (first, second)) (demo_self 2 10)
    = (Ok (r, r), demo_self 2 10).
Proof.
  split; [reflexivity |].
  apply (proj2 (proj2 (@select_twice demo_lib (Search BIC) (demo_self 2 10)))).
  reflexivity.
Defined.

Lemma selected_is_own_fit_witness :
  fst (@select demo_lib (Search DIC) (demo_self 2 10)) = Ok (Some (demo_model 3)) /\
  @fitted demo_lib (demo_self 2 10) 3 = Some (demo_model 3) /\
  @GaussianHMM_fit demo_lib 3 14 (frames 5) [2; 2; 1] = Ok (demo_model 3) /\
  14 = 14.
Proof.
  split; [reflexivity |].
  apply (@selected_is_own_fit demo_lib (Search DIC) (demo_self 2 10) (demo_model 3)).
  reflexivity.
Defined.

Lemma select_empty_range_witness :
  max_n_components (demo_self 5 2) < min_n_components (demo_self 5 2) /\
  @select demo_lib (Search BIC) (demo_self 5 2)
  = (Ok (Some (demo_model 3)), demo_self 5 2).
Proof.
  split; [reflexivity |].
  apply (proj2 (@select_empty_range demo_lib BIC (demo_self 5 2) eq_refl)).
  reflexivity.
Defined.

(** ** What a score of NaN or -inf, an empty item or a failing candidate does *)

Lemma ltb_inf_l (x : float) : ltb inf x = false.
Proof. destruct x as [[|]|[|]| |[|] ? ?]; reflexivity. Qed.

Lemma ltb_neg_inf_r (x : float) : ltb x neg_inf = false.
Proof. destruct x as [[|]|[|]| |[|] ? ?]; reflexivity. Qed.

Lemma add_nan_l (x : float) : add nan x = nan.
Proof. reflexivity. Qed.

Lemma add_inf_l (x : float) : add inf x = inf \/ add inf x = nan.
Proof. destruct x as [[|]|[|]| |[|] ? ?]; auto. Qed.

Lemma sub_neg_inf_l (x : float) : sub neg_inf x = neg_inf \/ sub neg_inf x = nan.
Proof. destruct x as [[|]|[|]| |[|] ? ?]; auto. Qed.

Lemma sub_nan_l (x : float) : sub nan x = nan.
Proof. reflexivity. Qed.

Lemma minus_two_nan : mul (of_Z (-2)) nan = nan.
Proof. reflexivity. Qed.

Lemma minus_two_neg_inf : mul (of_Z (-2)) neg_inf = inf.
Proof. reflexivity. Qed.

Section Edges.
Context `{L : Libraries}.

(** The score of a BIC candidate is -2 * logL plus something. *)
Lemma BIC_score_shape (self : ModelSelector) (n : Z) m logL model sc :
  fitted self n = Some m ->
  hmm_score m (X self) (lengths self) = Ok logL ->
  fst (SelectorBIC.candidate_score n self) = Ok (model, sc) ->
  0 < len (X self) /\ exists b, sc = add (mul (of_Z (-2)) logL) b.
Proof.
  intros Hfit Hscore.
  unfold SelectorBIC.candidate_score. run_base_model n self; [| discriminate].
  unfold bind. rewrite Hfit.
  unfold attr_n_features, ret, get, score, lift. rewrite Hscore.
  destruct (int_mul_float (-2) logL) as [a|] eqn:Ha; [| discriminate].
  unfold math_log at 1.
  destruct (Z.leb_spec (len (X self)) 0) as [Hle | Hle]; [discriminate |].
  destruct (int_mul_float (n ^ 2 + 2 * n * n_features m - 1) (ln (len (X self))))
    as [b|]; [| discriminate].
  simpl. intros H. injection H as _ <-.
  apply int_mul_float_Ok in Ha. subst a. split; [exact Hle | now exists b].
Qed.

(** The score of a DIC candidate is the own log-likelihood minus something. *)
Lemma DIC_score_shape (self : ModelSelector) (n : Z) m own model sc :
  fitted self n = Some m ->
  hmm_score m (X self) (lengths self) = Ok own ->
  fst (SelectorDIC.candidate_score n self) = Ok (model, sc) ->
  exists mean, sc = sub own mean.
Proof.
  intros Hfit Hscore.
  unfold SelectorDIC.candidate_score. run_base_model n self; [| discriminate].
  unfold bind. rewrite Hfit.
  unfold get at 1.
  pose proof (for_each_state (SelectorDIC.other_word (Some m)) (hwords self)
                (other_word_state (Some m)) [] self) as Hs.
  destruct (for_each (hwords self) _ [] self) as [[scores|e] self'];
    simpl in Hs; subst self'; [| discriminate].
  unfold get, score, lift. rewrite Hscore. simpl.
  intros H. injection H as _ <-. now exists (np_mean scores).
Qed.

(** X6: a candidate whose model gives the item's own data a
    log-likelihood of NaN or of -inf never replaces the running best, in
    any of the three searches. *)
Theorem degenerate_likelihood_skipped (c : criterion) (self : ModelSelector)
  (n : Z) (st : float * option hmm) (m : hmm) (logL : float) :
  fitted self n = Some m ->
  hmm_score m (X self) (lengths self) = Ok logL ->
  logL = nan \/ logL = neg_inf ->
  search_step c n st self = (Ok st, self).
Proof.
  intros Hfit Hscore Hdeg. rewrite search_step_run.
  unfold scan_step, evaluated.
  destruct (fst (candidate_eval c n self)) as [[model sc]|e] eqn:He;
    [| reflexivity].
  simpl outcome_to_option. cbv iota beta.
  assert (better c sc (fst st) = false) as ->; [| reflexivity].
  destruct c; simpl in He |- *.
  - destruct (BIC_score_shape _ _ _ _ _ _ Hfit Hscore He) as [_ [b ->]].
    destruct Hdeg as [-> | ->].
    + rewrite minus_two_nan, add_nan_l. apply ltb_nan_l.
    + rewrite minus_two_neg_inf.
      destruct (add_inf_l b) as [-> | ->]; [apply ltb_inf_l | apply ltb_nan_l].
  - destruct (DIC_score_shape _ _ _ _ _ _ Hfit Hscore He) as [mean ->].
    destruct Hdeg as [-> | ->].
    + rewrite sub_nan_l. apply ltb_nan_r.
    + destruct (sub_neg_inf_l mean) as [-> | ->];
        [apply ltb_neg_inf_r | apply ltb_nan_r].
  - unfold bind in He. destruct (CV_scores_raise n self) as [e' He'].
    rewrite He' in He. discriminate.
Qed.

(** X7: on an item without any feature vector every candidate iteration
    of SelectorBIC raises, math.log(0) at the latest, so SelectorBIC does
    what SelectorConstant.select does: with verbose off it returns the
    model fitted with n_constant states. *)
Theorem BIC_empty_item (self : ModelSelector) :
  len (X self) = 0 ->
  (forall n, exists e, fst (SelectorBIC.candidate_score n self) = Raise e) /\
  SelectorBIC.select self = SelectorConstant.select self /\
  (verbose self = false ->
   SelectorBIC.select self = (Ok (fitted self (n_constant self)), self)).
Proof.
  intros Hlen.
  assert (forall n, exists e, fst (SelectorBIC.candidate_score n self) = Raise e)
    as Hraise.
  { intros n. unfold SelectorBIC.candidate_score.
    run_base_model n self; [| now exists ebm]. unfold bind.
    destruct (fitted self n) as [m|]; [| now exists AttributeError].
    unfold attr_n_features, ret, get, score, lift.
    destruct (hmm_score m (X self) (lengths self)) as [logL|e]; [| now exists e].
    destruct (int_mul_float (-2) logL) as [a|e]; [| now exists e].
    unfold math_log at 1. rewrite Hlen. simpl. now exists ValueError. }
  split; [exact Hraise |].
  assert (SelectorBIC.select self = (fixed self, self)) as Hsel.
  { pose proof (select_run BIC self) as Hrun. simpl select in Hrun. rewrite Hrun.
    destruct (fixed self) as [best|e]; [| reflexivity].
    rewrite scan_all_None; [reflexivity |].
    intros n _. unfold evaluated. simpl candidate_eval.
    destruct (Hraise n) as [e ->]. reflexivity. }
  split.
  - rewrite Hsel. symmetry. apply (select_Constant_run self).
  - intros Hq. now rewrite Hsel, (fixed_quiet _ Hq).
Qed.

End Edges.

Lemma degenerate_likelihood_skipped_witness :
  @hmm_score underflow_lib (demo_model 2) (X (demo_self 2 4)) (lengths (demo_self 2 4))
  = Ok neg_inf /\
  @search_step underflow_lib BIC 2 (inf, None) (demo_self 2 4)
  = (Ok (inf, None), demo_self 2 4).
Proof.
  split; [reflexivity |].
  apply (@degenerate_likelihood_skipped underflow_lib BIC (demo_self 2 4) 2
           (inf, None) (demo_model 2) neg_inf).
  - reflexivity.
  - reflexivity.
  - now right.
Defined.

Lemma BIC_empty_item_witness :
  len (X empty_self) = 0 /\
  @SelectorBIC.select demo_lib empty_self = (Ok None, empty_self).
Proof.
  split; [reflexivity |].
  apply (proj2 (proj2 (@BIC_empty_item demo_lib empty_self eq_refl))).
  reflexivity.
Defined.

(** ** What each strategy reads *)

Lemma seq_from (a b : nat) : seq a b = map (Nat.add a) (seq 0 b).
Proof.
  revert a. induction b as [|b IH]; intros a; [reflexivity |].
  simpl. f_equal; [lia |].
  rewrite (IH (S a)), (IH 1%nat), map_map.
  apply map_ext. intros k. lia.
Qed.

Lemma py_range_app (lo mid hi : Z) :
  lo <= mid <= hi -> py_range lo hi = py_range lo mid ++ py_range mid hi.
Proof.
  intros H. unfold py_range.
  replace (Z.to_nat (hi - lo)) with (Z.to_nat (mid - lo) + Z.to_nat (hi - mid))%nat
    by lia.
  rewrite seq_app, map_app. f_equal. simpl.
  rewrite (seq_from (Z.to_nat (mid - lo))), map_map.
  apply map_ext. intros k. lia.
Qed.

Section Reads.
Context `{L : Libraries}.

Lemma base_model_agree (self self' : ModelSelector) (n : Z) :
  X self = X self' -> lengths self = lengths self' ->
  random_state self = random_state self' ->
  this_word self = this_word self' -> verbose self = verbose self' ->
  fst (base_model n self) = fst (base_model n self').
Proof.
  intros HX Hl Hr Hw Hv. rewrite !base_model_unfold. simpl.
  now rewrite HX, Hl, Hr, Hw, Hv.
Qed.

Lemma fitted_agree (self self' : ModelSelector) (n : Z) :
  X self = X self' -> lengths self = lengths self' ->
  random_state self = random_state self' ->
  this_word self = this_word self' -> verbose self = verbose self' ->
  fitted self n = fitted self' n.
Proof.
  intros HX Hl Hr Hw Hv. unfold fitted.
  now rewrite (base_model_agree self self' n HX Hl Hr Hw Hv).
Qed.

Lemma BIC_eval_agree (self self' : ModelSelector) (n : Z) :
  X self = X self' -> lengths self = lengths self' ->
  random_state self = random_state self' ->
  this_word self = this_word self' -> verbose self = verbose self' ->
  fst (SelectorBIC.candidate_score n self) = fst (SelectorBIC.candidate_score n self').
Proof.
  intros HX Hl Hr Hw Hv.
  unfold SelectorBIC.candidate_score. rewrite !bind_base_model.
  rewrite <- (base_model_agree self self' n HX Hl Hr Hw Hv).
  destruct (fst (base_model n self)) as [model|e]; [| reflexivity].
  unfold bind.
  destruct model as [m|]; [| reflexivity].
  unfold attr_n_features, ret, get, score, lift. rewrite <- HX, <- Hl.
  destruct (hmm_score m (X self) (lengths self)) as [logL|]; [| reflexivity].
  destruct (int_mul_float (-2) logL) as [a|]; [| reflexivity].
  destruct (math_log (len (X self))) as [lg|]; [| reflexivity].
  destruct (int_mul_float (n ^ 2 + 2 * n * n_features m - 1) lg); reflexivity.
Qed.

Lemma other_word_agree (self self' : ModelSelector) model item acc :
  this_word self = this_word self' ->
  fst (SelectorDIC.other_word model item acc self)
  = fst (SelectorDIC.other_word model item acc self').
Proof.
  intros Hw. destruct item as [word [tx tl]].
  unfold SelectorDIC.other_word, bind, get. rewrite <- Hw.
  destruct (negb (word =? this_word self)%string); [| reflexivity].
  destruct model as [m|]; simpl score; unfold lift, raise, ret; [| reflexivity].
  destruct (hmm_score m tx tl); reflexivity.
Qed.

Lemma others_loop_agree (self self' : ModelSelector) model items :
  this_word self = this_word self' ->
  forall acc,
    fst (for_each items (SelectorDIC.other_word model) acc self)
    = fst (for_each items (SelectorDIC.other_word model) acc self').
Proof.
  intros Hw. induction items as [|item items IH]; intros acc; simpl;
    [reflexivity |].
  unfold bind.
  pose proof (other_word_agree self self' model item acc Hw) as Ho.
  pose proof (other_word_state model item acc self) as Hs.
  pose proof (other_word_state model item acc self') as Hs'.
  destruct (SelectorDIC.other_word model item acc self) as [o1 s1].
  destruct (SelectorDIC.other_word model item acc self') as [o2 s2].
  simpl in Ho, Hs, Hs'. subst o2 s1 s2.
  destruct o1; [apply IH | reflexivity].
Qed.

Lemma DIC_eval_agree (self self' : ModelSelector) (n : Z) :
  X self = X self' -> lengths self = lengths self' ->
  random_state self = random_state self' ->
  this_word self = this_word self' -> verbose self = verbose self' ->
  hwords self = hwords self' ->
  fst (SelectorDIC.candidate_score n self) = fst (SelectorDIC.candidate_score n self').
Proof.
  intros HX Hl Hr Hw Hv Hh.
  unfold SelectorDIC.candidate_score. rewrite !bind_base_model.
  rewrite <- (base_model_agree self self' n HX Hl Hr Hw Hv).
  destruct (fst (base_model n self)) as [model|e]; [| reflexivity].
  unfold bind. unfold get at 1 3. rewrite <- Hh.
  pose proof (others_loop_agree self self' model (hwords self) Hw [])
    as Hloop.
  pose proof (for_each_state (SelectorDIC.other_word model) (hwords self)
                (other_word_state model) [] self) as Hs.
  pose proof (for_each_state (SelectorDIC.other_word model) (hwords self)
                (other_word_state model) [] self') as Hs'.
  destruct (for_each (hwords self) _ [] self) as [o1 s1].
  destruct (for_each (hwords self) _ [] self') as [o2 s2].
  simpl in Hloop, Hs, Hs'. subst o2 s1 s2.
  destruct o1 as [scores|]; [| reflexivity].
  unfold get. rewrite <- HX, <- Hl.
  destruct model as [m|]; simpl score; unfold lift, raise, ret;
    [| reflexivity].
  destruct (hmm_score m (X self) (lengths self)); reflexivity.
Qed.

Lemma evaluated_agree (c : criterion) (self self' : ModelSelector) (n : Z) :
  same_item self self' ->
  (c = DIC -> hwords self = hwords self') ->
  evaluated c self n = evaluated c self' n.
Proof.
  intros (HX & Hl & _ & _ & Hr & Hw & Hv) Hcoll.
  destruct c.
  - unfold evaluated. simpl candidate_eval. f_equal. now apply BIC_eval_agree.
  - unfold evaluated. simpl candidate_eval. f_equal.
    apply DIC_eval_agree; auto.
  - now rewrite !evaluated_CV.
Qed.

Lemma fixed_agree (self self' : ModelSelector) :
  same_item self self' -> fixed self = fixed self'.
Proof.
  intros (HX & Hl & Hn & _ & Hr & Hw & Hv). unfold fixed. rewrite <- Hn.
  now apply base_model_agree.
Qed.

(** X8: what select returns or raises depends only on X, lengths,
    n_constant, the two bounds and random_state, on this_word and verbose
    (through the prints of base_model) and, for SelectorDIC alone, on
    hwords.  The words dict and the sequence list influence no strategy:
    the sequences do not even reach the result of SelectorCV. *)
Theorem select_reads_only (s : strategy) (self self' : ModelSelector) :
  same_item self self' ->
  max_n_components self = max_n_components self' ->
  (s = Search DIC -> same_collection self self') ->
  fst (select s self) = fst (select s self').
Proof.
  intros Hitem Hmax Hcoll.
  pose proof Hitem as (HX & Hl & Hn & Hmin & Hr & Hw & Hv).
  pose proof (fixed_agree self self' Hitem) as Hfix.
  destruct s as [|c].
  - rewrite !select_Constant_run. simpl. exact Hfix.
  - rewrite !select_run. simpl fst. rewrite <- Hfix.
    destruct (fixed self) as [best|e]; [| reflexivity].
    assert (candidates self = candidates self') as <-
      by (unfold candidates; now rewrite Hmin, Hmax).
    f_equal. f_equal. apply scan_ext.
    intros n _. apply evaluated_agree; [exact Hitem |].
    intros ->. now apply Hcoll.
Qed.

(** X9: candidates that fail are invisible.  Raising max_n_components
    over sizes whose evaluation raises changes nothing in what a search
    returns or raises. *)
Theorem failing_candidates_invisible (c : criterion) (self self' : ModelSelector) :
  same_item self self' -> same_collection self self' ->
  max_n_components self <= max_n_components self' ->
  (forall n, max_n_components self < n <= max_n_components self' ->
             evaluated c self' n = None) ->
  fst (select (Search c) self') = fst (select (Search c) self).
Proof.
  intros Hitem [Hh _] Hmax Hfail.
  pose proof Hitem as (HX & Hl & Hn & Hmin & Hr & Hw & Hv).
  pose proof (fixed_agree self self' Hitem) as Hfix.
  rewrite !select_run. simpl fst. rewrite <- Hfix.
  destruct (fixed self) as [best|e]; [| reflexivity].
  f_equal. f_equal.
  rewrite (scan_ext (evaluated c self') (evaluated c self))
    by (intros n _; symmetry; now apply evaluated_agree).
  assert (forall n, max_n_components self < n <= max_n_components self' ->
                    evaluated c self n = None) as Hfail'.
  { intros n Hn'. rewrite <- (Hfail n Hn'). now apply evaluated_agree. }
  unfold candidates. rewrite <- Hmin.
  destruct (Z_le_gt_dec (min_n_components self) (max_n_components self + 1))
    as [Hle | Hgt].
  - rewrite (py_range_app (min_n_components self) (max_n_components self + 1)
               (max_n_components self' + 1)) by lia.
    rewrite scan_app. apply scan_all_None.
    intros n Hin. apply py_range_In in Hin. apply Hfail'. lia.
  - rewrite (scan_all_None _ _ (py_range _ (max_n_components self' + 1))).
    + assert (py_range (min_n_components self) (max_n_components self + 1) = [])
        as -> by (unfold py_range;
                  replace (Z.to_nat (max_n_components self + 1 - min_n_components self))
                    with 0%nat by lia; reflexivity).
      reflexivity.
    + intros n Hin. apply py_range_In in Hin. apply Hfail'. lia.
Qed.

Lemma others_count {V} (d : list (string * V)) (k : string) :
  NoDup (keys d) -> In k (keys d) ->
  S (length (filter (fun item => negb (String.eqb (fst item) k)) d)) = length d.
Proof.
  assert (forall d' : list (string * V), ~ In k (keys d') ->
            filter (fun item => negb (String.eqb (fst item) k)) d' = d') as Hall.
  { induction d' as [|[k' v] d' IH]; intros Hnot; [reflexivity |].
    simpl. destruct (String.eqb_spec k' k) as [-> | Hne].
    - elim Hnot. now left.
    - simpl. f_equal. apply IH. intros Hin. apply Hnot. now right. }
  induction d as [|[k' v] d IH]; intros Hnd Hin; [destruct Hin |].
  simpl in Hnd, Hin |- *. inversion Hnd as [|? ? Hnot Hnd']; subst.
  destruct (String.eqb_spec k' k) as [-> | Hne]; simpl.
  - now rewrite (Hall d Hnot).
  - f_equal. apply IH; [exact Hnd' |]. destruct Hin as [Heq | Hin]; [now elim Hne | exact Hin].
Qed.

(** The loop of lines 123-125 appends one score per item whose word is
    not this_word. *)
Lemma others_loop_length (self : ModelSelector) model items :
  forall acc scores self',
    for_each items (SelectorDIC.other_word model) acc self = (Ok scores, self') ->
    length scores
    = (length acc
       + length (filter (fun item => negb (String.eqb (fst item) (this_word self)))
                   items))%nat.
Proof.
  induction items as [|[word [tx tl]] items IH]; intros acc scores self' Hrun;
    simpl in Hrun |- *.
  - unfold ret in Hrun. injection Hrun as <- _. lia.
  - unfold bind at 1 in Hrun. unfold SelectorDIC.other_word at 1 in Hrun.
    unfold bind, get in Hrun.
    destruct (negb (word =? this_word self)%string).
    + destruct model as [m|]; simpl score in Hrun; unfold lift, raise in Hrun;
        [| discriminate].
      destruct (hmm_score m tx tl) as [s|e]; [| discriminate].
      unfold ret in Hrun. apply IH in Hrun. rewrite Hrun, length_app. simpl. lia.
    + unfold ret in Hrun. apply IH in Hrun. exact Hrun.
Qed.

(** X10: in a collection of M distinct words that contains the target,
    the loop of SelectorDIC over self.hwords.items() collects M - 1
    scores whenever it completes, and the score of a candidate is its own
    log-likelihood minus the sum of those scores divided by M - 1, the
    1/(M-1) of the class docstring. *)
Theorem DIC_mean_over_M_minus_1 (self : ModelSelector) :
  NoDup (keys (hwords self)) -> In (this_word self) (keys (hwords self)) ->
  (forall model scores,
      for_each (hwords self) (SelectorDIC.other_word model) [] self
      = (Ok scores, self) ->
      Z.of_nat (length scores) = Z.of_nat (length (hwords self)) - 1) /\
  (forall i model sc,
      fst (SelectorDIC.candidate_score i self) = Ok (model, sc) ->
      exists m own others,
        model = Some m /\ fitted self i = Some m /\
        hmm_score m (X self) (lengths self) = Ok own /\
        for_each (hwords self) (SelectorDIC.other_word (Some m)) [] self
        = (Ok others, self) /\
        sc = sub own (div (np_sum others)
                        (of_Z (Z.of_nat (length (hwords self)) - 1)))).
Proof.
  intros Hnd Hin.
  assert (forall model scores,
             for_each (hwords self) (SelectorDIC.other_word model) [] self
             = (Ok scores, self) ->
             Z.of_nat (length scores) = Z.of_nat (length (hwords self)) - 1)
    as Hcount.
  { intros model scores Hrun. apply others_loop_length in Hrun.
    pose proof (others_count (hwords self) (this_word self) Hnd Hin).
    simpl in Hrun. lia. }
  split; [exact Hcount |].
  intros i model sc. unfold SelectorDIC.candidate_score.
  run_base_model i self; [| discriminate]. unfold bind. unfold get at 1.
  pose proof (for_each_state (SelectorDIC.other_word (fitted self i)) (hwords self)
                (other_word_state (fitted self i)) [] self) as Hs.
  destruct (for_each (hwords self) _ [] self) as [[others|e] self'] eqn:Hloop;
    simpl in Hs; subst self'; [| discriminate].
  unfold get.
  destruct (fitted self i) as [m|]; [| discriminate].
  unfold score, lift.
  destruct (hmm_score m (X self) (lengths self)) as [own|] eqn:Hown;
    [| discriminate].
  simpl. intros H. injection H as <- <-.
  exists m, own, others.
  split; [reflexivity |]. split; [reflexivity |]. split; [exact Hown |].
  split; [exact Hloop |].
  unfold np_mean. now rewrite (Hcount _ _ Hloop).
Qed.

End Reads.

Lemma select_reads_only_witness :
  same_item (demo_self 2 10) bare_self /\
  fst (@select demo_lib (Search BIC) bare_self) = Ok (Some (demo_model 2)).
Proof.
  assert (same_item (demo_self 2 10) bare_self) as Hitem
    by (repeat split; reflexivity).
  split; [exact Hitem |].
  rewrite <- (@select_reads_only demo_lib (Search BIC) (demo_self 2 10) bare_self
                Hitem eq_refl).
  - reflexivity.
  - discriminate.
Defined.

Lemma failing_candidates_invisible_witness :
  (forall n, 5 < n <= 10 -> @evaluated demo_lib DIC (demo_self 2 10) n = None) /\
  fst (@select demo_lib (Search DIC) (demo_self 2 10))
  = fst (@select demo_lib (Search DIC) (demo_self 2 5)).
Proof.
  assert (forall n, 5 < n <= 10 -> @evaluated demo_lib DIC (demo_self 2 10) n = None)
    as Hfail.
  { intros n Hn.
    assert (n = 6 \/ n = 7 \/ n = 8 \/ n = 9 \/ n = 10) as Hcases by lia.
    destruct Hcases as [-> | [-> | [-> | [-> | ->]]]]; reflexivity. }
  split; [exact Hfail |].
  apply (@failing_candidates_invisible demo_lib DIC (demo_self 2 5) (demo_self 2 10)).
  - repeat split; reflexivity.
  - split; reflexivity.
  - simpl. lia.
  - exact Hfail.
Defined.

Lemma DIC_mean_over_M_minus_1_witness :
  NoDup (keys (hwords (demo_self 2 10))) /\
  @for_each _ _ (hwords (demo_self 2 10))
    (@SelectorDIC.other_word demo_lib (Some (demo_model 3))) [] (demo_self 2 10)
  = (Ok [of_Z (-1)], demo_self 2 10) /\
  Z.of_nat (length [of_Z (-1)]) = Z.of_nat (length (hwords (demo_self 2 10))) - 1.
Proof.
  assert (NoDup (keys (hwords (demo_self 2 10)))) as Hnd.
  { repeat constructor; simpl; intuition discriminate. }
  split; [exact Hnd |]. split; [reflexivity |].
  apply (proj1 (@DIC_mean_over_M_minus_1 demo_lib (demo_self 2 10) Hnd
                  (or_introl eq_refl))
           (Some (demo_model 3)) [of_Z (-1)]).
  reflexivity.
Defined.
